(** * boilingcore/output.go: assembling, validating and writing generated files

    A shallow embedding of the output stage of the generator
    (package [boilingcore], file [output.go]) and the properties of it
    that the specification states.

    Go strings and byte slices are [string]s (sequences of bytes), Go [int]
    is [Z] (64 bit, saturating where [strconv] saturates), Go maps are
    [gmap]s.  The package-level buffer [templateByteBuffer] and the file
    system live in an explicit [World] that every effectful function
    threads through. *)

From Stdlib Require Import ZArith Lia Ascii.
From stdpp Require Import base strings gmap list pretty.

Local Open Scope Z_scope.

(** ** Bytes and strings *)

Definition LF : ascii := "010"%char.
Definition CR : ascii := "013"%char.
Definition nl : string := String LF "".

(** [s[:n]] *)
Fixpoint take_prefix (n : nat) (s : string) : string :=
  match n, s with
  | S n', String c s' => String c (take_prefix n' s')
  | _, _ => ""
  end.

Fixpoint concat_strings (l : list string) : string :=
  match l with
  | [] => ""
  | s :: l' => s +:+ concat_strings l'
  end.

Fixpoint spaces (n : nat) : string :=
  match n with
  | O => ""
  | S n' => String " " (spaces n')
  end.

(** ** Regular expressions of the package

    Both expressions are built from the class [[0-9]] (which is what [\d]
    means in Go's RE2 syntax) and literal bytes.  After a greedy run of
    digits the next pattern byte is never a digit, so matching the longest
    run is the only way to match and no backtracking is involved. *)

Definition is_digit (c : ascii) : bool :=
  match Ascii.is_nat c with Some _ => true | None => false end.

(** The longest run of digits a string starts with, and what follows it. *)
Fixpoint span_digits (s : string) : string * string :=
  match s with
  | "" => ("", "")
  | String c s' =>
      if is_digit c
      then let (ds, rest) := span_digits s' in (String c ds, rest)
      else ("", s)
  end.

(** [rgxRemoveNumberedPrefix.ReplaceAllString(s, "")] where
    [rgxRemoveNumberedPrefix = regexp.MustCompile(`^[0-9]+_`)]: the
    expression is anchored, so at most one match, at offset 0, is removed. *)
Definition rgxRemoveNumberedPrefix_ReplaceAllString_empty (s : string) : string :=
  match span_digits s with
  | (String _ _, String "_" rest) => rest
  | _ => s
  end.


(** [rgxSyntaxError = regexp.MustCompile(`(\d+):\d+: `)] tried at the start
    of [s]; the result is the text of group 1. *)
Definition rgxSyntaxError_match_here (s : string) : option string :=
  match span_digits s with
  | (String c ds, String ":" s1) =>
      match span_digits s1 with
      | (String _ _, String ":" (String " " _)) => Some (String c ds)
      | _ => None
      end
  | _ => None
  end.

(** [rgxSyntaxError.FindStringSubmatch(s)], reduced to [matches[1]]: the
    leftmost match wins; [None] is Go's [nil] result. *)
Fixpoint rgxSyntaxError_FindStringSubmatch (s : string) : option string :=
  match rgxSyntaxError_match_here s with
  | Some g => Some g
  | None =>
      match s with
      | "" => None
      | String _ s' => rgxSyntaxError_FindStringSubmatch s'
      end
  end.

(** ** strconv.Atoi, with the error result dropped as the caller does

    [int] is 64 bits wide.  On a range error Atoi returns the nearest
    representable value, on a syntax error it returns 0. *)

Definition MaxInt : Z := 2 ^ 63 - 1.
Definition MinInt : Z := - 2 ^ 63.

Fixpoint decimal_value (acc : Z) (s : string) : option Z :=
  match s with
  | "" => Some acc
  | String c s' =>
      match Ascii.is_nat c with
      | Some d => decimal_value (10 * acc + Z.of_nat d) s'
      | None => None
      end
  end.

Definition Atoi_unsigned (s : string) : option Z :=
  match s with
  | "" => None
  | _ => decimal_value 0 s
  end.

Definition Atoi (s : string) : Z :=
  match s with
  | String "-" s' =>
      match Atoi_unsigned s' with
      | Some v => Z.max MinInt (- v)
      | None => 0
      end
  | String "+" s' =>
      match Atoi_unsigned s' with
      | Some v => Z.min MaxInt v
      | None => 0
      end
  | _ =>
      match Atoi_unsigned s with
      | Some v => Z.min MaxInt v
      | None => 0
      end
  end.

(** ** path/filepath *)

Definition IsPathSeparator (c : ascii) : bool := Ascii.eqb c "/".

(** The loop of [filepath.Ext]: [i] walks down from the last byte;
    [rpath] is [path[:i+1]] reversed and [seen] is [path[i+1:]]. *)
Fixpoint Ext_loop (rpath : string) (seen : string) : string :=
  match rpath with
  | "" => ""
  | String c more =>
      if IsPathSeparator c then ""
      else if Ascii.eqb c "." then String c seen
      else Ext_loop more (String c seen)
  end.

Definition Ext (path : string) : string := Ext_loop (String.rev path) "".

(** ** Name of the file of a singleton template
    (executeSingletonTemplates, lines 144-146)
<<
    fName := tplName
    ext := filepath.Ext(fName)
    fName = rgxRemoveNumberedPrefix.ReplaceAllString(fName[:len(fName)-len(ext)], "")
>> *)
Definition singletonFName (tplName : string) : string :=
  let fName := tplName in
  let ext := Ext fName in
  rgxRemoveNumberedPrefix_ReplaceAllString_empty
    (take_prefix (String.length fName - String.length ext) fName).

(** ** Errors (github.com/pkg/errors) and panics *)

(** A Go [error] value, kept as the tree the [errors] package builds. *)
Inductive error : Type :=
| External (msg : string)               (* made by a collaborator *)
| Errorf (msg : string)                 (* errors.Errorf, message formatted *)
| Wrap (cause : error) (msg : string).  (* errors.Wrap/Wrapf, message formatted *)

(** [err.Error()] *)
Fixpoint Error (e : error) : string :=
  match e with
  | External msg => msg
  | Errorf msg => msg
  | Wrap cause msg => msg +:+ ": " +:+ Error cause
  end.

(** How a Go call ends: it returns, or it panics with a value.  The value
    is kept as its [%+v] rendering.  A run-time panic carries a non-nil
    value (a [runtime.Error]), which is what [recover] hands back; a panic
    raised on purpose with the value nil is left out of the model. *)
Inductive outcome (A : Type) : Type :=
| Return (a : A)
| Panic (r : string).
Arguments Return {A} a.
Arguments Panic {A} r.

(** [recover()] in a deferred function, given how the body ended. *)
Definition recover {A : Type} (body : outcome A) : option string :=
  match body with
  | Panic r => Some r
  | Return _ => None
  end.

(** ** Data handed in by the rest of the generator

    These types are declared in other files of the repository; only the
    fields [output.go] reads are kept. *)

(** Modelled from the spec: a column of the entity descriptor, "each
    exposing a semantic type string" (the field [Type] of the source). *)
Record column := { Type_ : string }.

(** Modelled from the spec: the entity (table) descriptor, "name, ordered
    list of columns, a flag marking it as a pure join table". *)
Record table := {
  Name : string;
  Columns : list column;
  IsJoinTable : bool;
}.

(** Modelled from the spec: the data context of the templates, of which
    [output.go] reads the entity descriptor. *)
Record templateData := { Table : table }.

(** Modelled from the spec: importers.Set, "two ordered sets of strings,
    core imports and external imports". *)
Record importers_Set := {
  Standard : list string;
  ThirdParty : list string;
}.

(** Modelled from the spec: importers.Collection, the import registry: the
    default sets of generated and of test files, the named sets of the
    singleton templates (generated and test), and the sets by column
    type. *)
Record importers_Collection := {
  All : importers_Set;
  Test : importers_Set;
  Singleton : gmap string importers_Set;
  TestSingleton : gmap string importers_Set;
  BasedOnType : gmap string importers_Set;
}.

(** Modelled from the spec: the configuration, of which [output.go] reads
    the package name, the output directory and the import registry. *)
Record config := {
  PkgName : string;
  OutFolder : string;
  Imports : importers_Collection;
}.

(** What one [t.ExecuteTemplate(buf, name, data)] does: the bytes it appends
    to [buf] before it ends, and how it ends. *)
Record rendering := {
  output : string;
  completion : outcome (option error);
}.

(** [*template.Template], as its [ExecuteTemplate] method. *)
Definition template : Type := string -> templateData -> rendering.

(** Modelled from the spec: [*templateList], "an ordered list of named
    template identifiers plus the ability to execute one by name": the
    field [Template] and what the method [Templates()] returns. *)
Record templateList := {
  Template : template;
  Templates : list string;
}.

(** Modelled from the spec: the state of a run, of which [output.go] reads
    the configuration and the four template sets ([Templates_] is the
    field [Templates] of the source). *)
Record State := {
  Config : config;
  Templates_ : templateList;
  TestTemplates : templateList;
  SingletonTemplates : templateList;
  SingletonTestTemplates : templateList;
}.

(** executeTemplateData (lines 83-95) *)
Record executeTemplateData := {
  state : State;
  data : templateData;
  templates : templateList;
  importSet : importers_Set;
  importNamedSet : gmap string importers_Set;
  combineImportsOnType : bool;
  fileSuffix : string;
}.

(** Go zero values of the fields a composite literal leaves out. *)
Definition zero_Set : importers_Set := {| Standard := []; ThirdParty := [] |}.
Definition nil_Map : gmap string importers_Set := ∅.

(** [m[key]] on a Go map: the zero value when the key is absent. *)
Definition Map_index (m : gmap string importers_Set) (key : string) : importers_Set :=
  default zero_Set (m !! key).

(** ** The world the package acts on

    The shared buffer and the file system, and two logs that only record
    what was called: the templates run and the files handed to the
    writer. *)

Record World := {
  templateByteBuffer : string;      (* unread contents of the shared buffer *)
  files : gmap string string;       (* the file system: path to contents *)
  unwritable : gset string;         (* paths the system refuses to open for writing *)
  executed : list string;           (* names given to ExecuteTemplate so far *)
  writeCalls : list (string * string);
                                    (* path and data of the calls of
                                       testHarnessWriteFile so far *)
}.

Definition set_buffer (b : string) (w : World) : World :=
  {| templateByteBuffer := b; files := files w;
     unwritable := unwritable w; executed := executed w;
     writeCalls := writeCalls w |}.

Definition set_files (f : gmap string string) (w : World) : World :=
  {| templateByteBuffer := templateByteBuffer w; files := f;
     unwritable := unwritable w; executed := executed w;
     writeCalls := writeCalls w |}.

Definition log_executed (name : string) (w : World) : World :=
  {| templateByteBuffer := templateByteBuffer w; files := files w;
     unwritable := unwritable w; executed := executed w ++ [name];
     writeCalls := writeCalls w |}.

(** [out.Reset()], [out.Write(p)] / [fmt.Fprintf(out, ...)], [out.Bytes()] on
    the shared buffer. *)
Definition Reset (w : World) : World := set_buffer "" w.
Definition Write (p : string) (w : World) : World :=
  set_buffer (templateByteBuffer w +:+ p) w.
Definition Bytes (w : World) : string := templateByteBuffer w.

Definition log_call (path data : string) (w : World) : World :=
  {| templateByteBuffer := templateByteBuffer w; files := files w;
     unwritable := unwritable w; executed := executed w;
     writeCalls := writeCalls w ++ [(path, data)] |}.

(** [ioutil.WriteFile(path, data, 0666)]: the file is replaced as a whole, or
    opening it fails and nothing changes. *)
Definition ioutil_WriteFile (path data : string) (w : World) : option error * World :=
  let w := log_call path data w in
  if decide (path ∈ unwritable w)
  then (Some (External ("open " +:+ path +:+ ": permission denied")), w)
  else (None, set_files (<[path := data]> (files w)) w).

Definition testHarnessWriteFile := ioutil_WriteFile.

(** ** Collaborators outside this file

    [go/format], [path/filepath] and the [importers] package. *)
Class Collaborators := {
  (** format.Source(src) *)
  format_Source : string -> string + error;
  (** filepath.Join(dir, file) *)
  filepath_Join : string -> string -> string;
  (** importers.Set.Format() *)
  Set_Format : importers_Set -> string;
  (** importers.AddTypeImports(set, basedOnType, colTypes) *)
  AddTypeImports :
    importers_Set -> gmap string importers_Set -> list string -> importers_Set;
}.

(** ** bufio.Scanner with the default split function (ScanLines)

    The scanner's buffer grows up to [MaxScanTokenSize] bytes.  A line is
    delivered when its newline lies within that many bytes of the line's
    start, or when the input ends before the buffer is full; a trailing
    carriage return is dropped.  Otherwise scanning stops (ErrTooLong) with
    the bytes read so far consumed from the reader. *)

Definition MaxScanTokenSize : Z := 64 * 1024.

(** dropCR, on a line held in reverse *)
Definition dropCR_rev (rline : string) : string :=
  match rline with
  | String c r => if Ascii.eqb c CR then r else rline
  | "" => rline
  end.

(** [rline] is the current line so far, reversed, and [n] its length.
    The result is the list of tokens of the successive [Scan()] calls that
    return true, and what is left unread in the reader. *)
Fixpoint Scanner_scan (rline : string) (n : Z) (input : string) : list string * string :=
  match input with
  | "" =>
      match rline with
      | "" => ([], "")
      | _ => ([String.rev (dropCR_rev rline)], "")
      end
  | String c rest =>
      if Ascii.eqb c LF then
        let (toks, unread) := Scanner_scan "" 0 rest in
        (String.rev (dropCR_rev rline) :: toks, unread)
      else if MaxScanTokenSize <=? n + 1 then ([], rest)
      else Scanner_scan (String c rline) (n + 1) rest
  end.

Definition Scanner_lines (input : string) : list string * string :=
  Scanner_scan "" 0 input.

(** ** fmt *)

(** [fmt.Sprintf("% 4d", n)]: a space in the place of the sign of a
    non-negative number, padded with spaces on the left to width 4. *)
Definition Sprintf_space_4d (n : Z) : string :=
  let body := if n <? 0 then pretty n else " " +:+ pretty n in
  spaces (4 - String.length body) +:+ body.

(** ** output.go *)

Definition noEditDisclaimer : string :=
  "// Code generated by SQLBoiler (https://github.com/volatiletech/sqlboiler). DO NOT EDIT." +:+ nl +:+
  "// This file is meant to be re-generated in place and/or deleted at any time." +:+ nl +:+
  nl.

Section Output.
Context `{Collaborators}.

(** writeFileDisclaimer writes the disclaimer at the top with a trailing
    newline so the package name doesn't get attached to it. *)
Definition writeFileDisclaimer (w : World) : World :=
  Write noEditDisclaimer w.

(** writePackageName: [fmt.Fprintf(out, "package %s\n\n", pkgName)] *)
Definition writePackageName (pkgName : string) (w : World) : World :=
  Write ("package " +:+ pkgName +:+ nl +:+ nl) w.

(** writeImports: [fmt.Fprintf(out, "%s\n", impStr)] when [len(impStr) > 0] *)
Definition writeImports (imps : importers_Set) (w : World) : World :=
  let impStr := Set_Format imps in
  if (0 <? String.length impStr)%nat then Write (impStr +:+ nl) w else w.

(** [t.ExecuteTemplate(buf, name, data)] with [buf] the shared buffer. *)
Definition ExecuteTemplate (t : template) (name : string) (data : templateData)
    (w : World) : outcome (option error) * World :=
  let r := t name data in
  (completion r, Write (output r) (log_executed name w)).

(** executeTemplate takes a template and returns the output of the template
    execution.  The body may panic; the deferred function then sets the
    named result [err] and the call returns normally. *)
Definition executeTemplate (t : template) (name : string) (data : templateData)
    (w : World) : outcome (option error) * World :=
  let (ran, w) := ExecuteTemplate t name data w in
  let body : outcome (option error) :=
    match ran with
    | Return (Some err) =>
        Return (Some (Wrap err ("failed to execute template: " +:+ name)))
    | Return None => Return None
    | Panic r => Panic r
    end in
  match recover body with
  | Some r =>
      (Return (Some (Errorf ("failed to execute template: " +:+ name +:+ nl +:+
                             "panic: " +:+ r +:+ nl))), w)
  | None => (body, w)
  end.

(** The loop of formatBuffer over the scanner's tokens (lines 234-247).
    [line - lineNum] cannot leave the range of [int]: [lineNum] is between 0
    and [MaxInt] and [line] counts lines of a buffer held in memory. *)
Fixpoint formatBuffer_loop (lineNum line : Z) (tokens : list string)
    (errBuf : string) : string :=
  match tokens with
  | [] => errBuf
  | tok :: more =>
      let delta := line - lineNum in
      if (delta <? -5) || (5 <? delta) then
        formatBuffer_loop lineNum (line + 1) more errBuf
      else
        let errBuf :=
          if line =? lineNum then errBuf +:+ ">>>> "
          else errBuf +:+ Sprintf_space_4d line +:+ " " in
        let errBuf := errBuf +:+ tok in
        let errBuf := errBuf +:+ nl in
        formatBuffer_loop lineNum (line + 1) more errBuf
  end.

(** formatBuffer, on the shared buffer.  The scanner reads from the buffer
    itself, so the failure path with an excerpt consumes it. *)
Definition formatBuffer (w : World) : (string + error) * World :=
  match format_Source (Bytes w) with
  | inl output => (inl output, w)
  | inr err =>
      match rgxSyntaxError_FindStringSubmatch (Error err) with
      | None => (inr (Wrap err "failed to format template"), w)
      | Some m1 =>
          let lineNum := Atoi m1 in
          let (tokens, unread) := Scanner_lines (templateByteBuffer w) in
          let errBuf := formatBuffer_loop lineNum 1 tokens "" in
          (inr (Wrap err ("failed to format template" +:+ nl +:+ nl +:+
                          errBuf +:+ nl)),
           set_buffer unread w)
      end
  end.

(** writeFile writes to the given folder and filename, formatting the buffer
    given. *)
Definition writeFile (outFolder fileName : string) (w : World)
    : option error * World :=
  match formatBuffer w with
  | (inr err, w) => (Some err, w)
  | (inl byt, w) =>
      let path := filepath_Join outFolder fileName in
      match testHarnessWriteFile path byt w with
      | (Some err, w) =>
          (Some (Wrap err ("failed to write output file " +:+ path)), w)
      | (None, w) => (None, w)
      end
  end.

(** The loop of executeTemplates (lines 121-125). *)
Fixpoint executeTemplates_loop (t : template) (d : templateData)
    (names : list string) (w : World) : outcome (option error) * World :=
  match names with
  | [] => (Return None, w)
  | tplName :: more =>
      match executeTemplate t tplName d w with
      | (Return None, w) => executeTemplates_loop t d more w
      | (Return (Some err), w) => (Return (Some err), w)
      | (Panic r, w) => (Panic r, w)
      end
  end.

Definition executeTemplates (e : executeTemplateData) (w : World)
    : outcome (option error) * World :=
  if IsJoinTable (Table (data e)) then (Return None, w)
  else
    let w := Reset w in
    let imps := {| Standard := Standard (importSet e);
                   ThirdParty := ThirdParty (importSet e) |} in
    let imps :=
      if combineImportsOnType e then
        let colTypes := map Type_ (Columns (Table (data e))) in
        AddTypeImports imps (BasedOnType (Imports (Config (state e)))) colTypes
      else imps in
    let w := writeFileDisclaimer w in
    let w := writePackageName (PkgName (Config (state e))) w in
    let w := writeImports imps w in
    match executeTemplates_loop (Template (templates e)) (data e)
            (Templates (templates e)) w with
    | (Return None, w) =>
        let fName := Name (Table (data e)) +:+ fileSuffix e in
        match writeFile (OutFolder (Config (state e))) fName w with
        | (Some err, w) => (Return (Some err), w)
        | (None, w) => (Return None, w)
        end
    | (Return (Some err), w) => (Return (Some err), w)
    | (Panic r, w) => (Panic r, w)
    end.

(** The loop of executeSingletonTemplates (lines 141-164). *)
Fixpoint executeSingletonTemplates_loop (e : executeTemplateData)
    (names : list string) (w : World) : outcome (option error) * World :=
  match names with
  | [] => (Return None, w)
  | tplName :: more =>
      let w := Reset w in
      let fName := singletonFName tplName in
      let imps := {| Standard := Standard (Map_index (importNamedSet e) fName);
                     ThirdParty := ThirdParty (Map_index (importNamedSet e) fName) |} in
      let w := writeFileDisclaimer w in
      let w := writePackageName (PkgName (Config (state e))) w in
      let w := writeImports imps w in
      match executeTemplate (Template (templates e)) tplName (data e) w with
      | (Return None, w) =>
          match writeFile (OutFolder (Config (state e))) (fName +:+ fileSuffix e) w with
          | (Some err, w) => (Return (Some err), w)
          | (None, w) => executeSingletonTemplates_loop e more w
          end
      | (Return (Some err), w) => (Return (Some err), w)
      | (Panic r, w) => (Panic r, w)
      end
  end.

Definition executeSingletonTemplates (e : executeTemplateData) (w : World)
    : outcome (option error) * World :=
  if IsJoinTable (Table (data e)) then (Return None, w)
  else executeSingletonTemplates_loop e (Templates (templates e)) w.

(** generateOutput builds the file output and sends it to outHandler for
    saving *)
Definition generateOutput (state : State) (data : templateData) :=
  executeTemplates {|
    state := state;
    data := data;
    templates := Templates_ state;
    importSet := All (Imports (Config state));
    importNamedSet := nil_Map;
    combineImportsOnType := true;
    fileSuffix := ".go";
  |}.

(** generateTestOutput builds the test file output and sends it to
    outHandler for saving *)
Definition generateTestOutput (state : State) (data : templateData) :=
  executeTemplates {|
    state := state;
    data := data;
    templates := TestTemplates state;
    importSet := Test (Imports (Config state));
    importNamedSet := nil_Map;
    combineImportsOnType := false;
    fileSuffix := "_test.go";
  |}.

(** generateSingletonOutput processes the templates that should only be run
    one time. *)
Definition generateSingletonOutput (state : State) (data : templateData) :=
  executeSingletonTemplates {|
    state := state;
    data := data;
    templates := SingletonTemplates state;
    importSet := zero_Set;
    importNamedSet := Singleton (Imports (Config state));
    combineImportsOnType := false;
    fileSuffix := ".go";
  |}.

(** generateSingletonTestOutput processes the templates that should only be
    run one time. *)
Definition generateSingletonTestOutput (state : State) (data : templateData) :=
  executeSingletonTemplates {|
    state := state;
    data := data;
    templates := SingletonTestTemplates state;
    importSet := zero_Set;
    importNamedSet := TestSingleton (Imports (Config state));
    combineImportsOnType := false;
    fileSuffix := ".go";
  |}.

End Output.

(** ** Vocabulary of the specification *)

(** A template execution that neither returns an error nor panics. *)
Definition succeeds (r : rendering) : bool :=
  match completion r with
  | Return None => true
  | _ => false
  end.

Definition all_succeed (tl : templateList) (d : templateData) : bool :=
  forallb (fun name => succeeds (Template tl name d)) (Templates tl).

(** The rendered bodies of the named templates, in the order of the list. *)
Definition rendered_bodies (t : template) (d : templateData) (names : list string) : string :=
  concat_strings (map (fun name => output (t name d)) names).

Definition banner_line_1 : string :=
  "// Code generated by SQLBoiler (https://github.com/volatiletech/sqlboiler). DO NOT EDIT.".
Definition banner_line_2 : string :=
  "// This file is meant to be re-generated in place and/or deleted at any time.".

(** The import block of a file: nothing when the set formats to the empty
    string. *)
Definition import_block (impStr : string) : string :=
  match impStr with
  | "" => ""
  | _ => impStr +:+ nl
  end.

(** The layout of a generated file before formatting: the two banner
    lines, a blank line, the package clause followed by a blank line, the
    import block, the bodies. *)
Definition fileLayout (pkgName impStr bodies : string) : string :=
  banner_line_1 +:+ nl +:+
  banner_line_2 +:+ nl +:+
  nl +:+
  "package " +:+ pkgName +:+ nl +:+
  nl +:+
  import_block impStr +:+
  bodies.

(** A result of a call that cannot panic, as the result of one that can. *)
Definition returned (r : option error * World) : outcome (option error) * World :=
  (Return (fst r), snd r).

(** The world in which a file is validated and written: the shared buffer
    holds [content], the templates [names] have been run. *)
Definition assembled_world (content : string) (names : list string) (w : World) : World :=
  {| templateByteBuffer := content; files := files w;
     unwritable := unwritable w; executed := executed w ++ names;
     writeCalls := writeCalls w |}.

(** [calls] are the calls of the file writer made from [w] to [w']. *)
Definition calls_between (w w' : World) (calls : list (string * string)) : Prop :=
  writeCalls w' = writeCalls w ++ calls.

(** A sequence of whole-file writes applied to a file system. *)
Fixpoint apply_writes (ws : list (string * string)) (fs : gmap string string)
    : gmap string string :=
  match ws with
  | [] => fs
  | (p, c) :: ws' => apply_writes ws' (<[p := c]> fs)
  end.

Definition with_BasedOnType (m : gmap string importers_Set) (st : State) : State :=
  {| Config :=
       {| PkgName := PkgName (Config st);
          OutFolder := OutFolder (Config st);
          Imports :=
            {| All := All (Imports (Config st));
               Test := Test (Imports (Config st));
               Singleton := Singleton (Imports (Config st));
               TestSingleton := TestSingleton (Imports (Config st));
               BasedOnType := m |} |};
     Templates_ := Templates_ st;
     TestTemplates := TestTemplates st;
     SingletonTemplates := SingletonTemplates st;
     SingletonTestTemplates := SingletonTestTemplates st |}.

Fixpoint all_digits (s : string) : bool :=
  match s with
  | "" => true
  | String c s' => is_digit c && all_digits s'
  end.

(** [s] holds an occurrence of [line:column: ], the text the formatter
    puts in front of a syntax error. *)
Definition has_line_column (s : string) : Prop :=
  exists pre num col post,
    s = pre +:+ num +:+ ":" +:+ col +:+ ": " +:+ post /\
    num <> "" /\ all_digits num = true /\
    col <> "" /\ all_digits col = true.

(** *** The template loop as pure functions

    What the loop of executeTemplates returns, appends to the buffer and
    runs, as functions of the template set alone. *)

(** The error executeTemplate returns for one template, if any. *)
Definition executeTemplate_result (t : template) (name : string) (d : templateData)
    : option error :=
  match completion (t name d) with
  | Return None => None
  | Return (Some err) => Some (Wrap err ("failed to execute template: " +:+ name))
  | Panic r =>
      Some (Errorf ("failed to execute template: " +:+ name +:+ nl +:+
                    "panic: " +:+ r +:+ nl))
  end.

Fixpoint first_failure (t : template) (d : templateData) (names : list string)
    : option error :=
  match names with
  | [] => None
  | name :: more =>
      match executeTemplate_result t name d with
      | Some err => Some err
      | None => first_failure t d more
      end
  end.

(** The names run: all of them up to and including the first that fails. *)
Fixpoint ran_names (t : template) (d : templateData) (names : list string)
    : list string :=
  match names with
  | [] => []
  | name :: more =>
      name :: match executeTemplate_result t name d with
              | Some _ => []
              | None => ran_names t d more
              end
  end.

Definition ran_output (t : template) (d : templateData) (names : list string) : string :=
  rendered_bodies t d (ran_names t d names).

(** *** Assembled files *)

Section Assembly.
Context `{Collaborators}.

(** The import set of a per-entity file: the base set, widened by the
    column types when the call asks for it. *)
Definition effective_imports (e : executeTemplateData) : importers_Set :=
  if combineImportsOnType e then
    AddTypeImports (importSet e) (BasedOnType (Imports (Config (state e))))
      (map Type_ (Columns (Table (data e))))
  else importSet e.

(** The buffer of a per-entity file once the templates [names] have run. *)
Definition assembled (e : executeTemplateData) (names : list string) : string :=
  fileLayout (PkgName (Config (state e))) (Set_Format (effective_imports e))
    (rendered_bodies (Template (templates e)) (data e) names).

(** The import set of the file of one singleton template. *)
Definition singleton_imports (e : executeTemplateData) (tplName : string) : importers_Set :=
  Map_index (importNamedSet e) (singletonFName tplName).

(** The buffer of the file of one singleton template. *)
Definition singleton_assembled (e : executeTemplateData) (tplName : string) : string :=
  fileLayout (PkgName (Config (state e))) (Set_Format (singleton_imports e tplName))
    (output (Template (templates e) tplName (data e))).

End Assembly.

(** What a call returns and writes is fixed by the paths that cannot be
    written: the shared buffer, the files and the log it starts from play
    no part. *)
Definition fixed_by_unwritable (run : World -> outcome (option error) * World) : Prop :=
  forall u, exists res calls ws, forall w,
    unwritable w = u ->
    fst (run w) = res /\
    calls_between w (snd (run w)) calls /\
    files (snd (run w)) = apply_writes ws (files w) /\
    unwritable (snd (run w)) = u.

(** *** Lines of a text and the excerpt of a diagnostic *)

(** The text cut at every newline; a last piece without newline counts
    when it is not empty. *)
Fixpoint split_LF (s : string) : list string :=
  match s with
  | "" => []
  | String c s' =>
      if Ascii.eqb c LF then "" :: split_LF s'
      else match split_LF s' with
           | [] => [String c ""]
           | l :: ls => String c l :: ls
           end
  end.

(** A line without the carriage return it may end with. *)
Fixpoint dropCR (l : string) : string :=
  match l with
  | "" => ""
  | String c l' =>
      match l' with
      | "" => if Ascii.eqb c CR then "" else l
      | _ => String c (dropCR l')
      end
  end.


(** A line that, with its end-of-line carriage return, fits the scanner. *)
Definition fits (l : string) : bool :=
  Z.of_nat (String.length l) <? MaxScanTokenSize.

(** The lines before the first one that does not fit. *)
Fixpoint take_fitting (ls : list string) : list string :=
  match ls with
  | [] => []
  | l :: ls' => if fits l then l :: take_fitting ls' else []
  end.


Fixpoint number_from (k : Z) (ls : list string) : list (Z * string) :=
  match ls with
  | [] => []
  | l :: ls' => (k, l) :: number_from (k + 1) ls'
  end.

Definition in_window (lineNum : Z) (numbered : Z * string) : bool :=
  Z.abs (fst numbered - lineNum) <=? 5.

(** The numbered lines within distance 5 of [lineNum], in text order. *)
Definition window (lineNum : Z) (ls : list string) : list (Z * string) :=
  List.filter (in_window lineNum) (number_from 1 ls).

Definition excerpt_line (lineNum : Z) (numbered : Z * string) : string :=
  (if fst numbered =? lineNum then ">>>> "
   else Sprintf_space_4d (fst numbered) +:+ " ")
  +:+ snd numbered +:+ nl.


(** The piece [pre] of a line, put in front of the lines of what follows
    it. *)
Definition join_first (pre : string) (ls : list string) : list string :=
  match ls with
  | [] => match pre with "" => [] | _ => [pre] end
  | l :: ls' => (pre +:+ l) :: ls'
  end.

(** ** Concrete collaborators and inputs, for running the code *)

Definition quoted (s : string) : string :=
  String "034" (s +:+ String "034" "").

Definition sample_Format (s : importers_Set) : string :=
  match (Standard s ++ ThirdParty s)%list with
  | [] => ""
  | imps =>
      "import (" +:+
      concat_strings (map (fun i => nl +:+ String "009" i) imps) +:+
      nl +:+ ")" +:+ nl
  end.

Definition sample_AddTypeImports (s : importers_Set)
    (basedOnType : gmap string importers_Set) (colTypes : list string) : importers_Set :=
  {| Standard :=
       (Standard s ++ concat (map (fun ty => Standard (Map_index basedOnType ty)) colTypes))%list;
     ThirdParty :=
       (ThirdParty s ++ concat (map (fun ty => ThirdParty (Map_index basedOnType ty)) colTypes))%list |}.

(** Collaborators around a given stand-in for the formatter. *)
Definition sample_collaborators (fmt : string -> string + error) : Collaborators :=
  {| format_Source := fmt;
     filepath_Join := fun dir file => dir +:+ "/" +:+ file;
     Set_Format := sample_Format;
     AddTypeImports := sample_AddTypeImports |}.

Definition format_ok : string -> string + error := inl.
Definition format_fails (msg : string) : string -> string + error :=
  fun _ => inr (External msg).

(** A template set: [broken.tpl] returns an error after writing part of its
    output, [panics.tpl] faults, every other name renders a comment. *)
Definition sample_template : template :=
  fun name _ =>
    if String.eqb name "broken.tpl" then
      {| output := "// partial";
         completion := Return (Some (External "template: broken.tpl:3:5: nil pointer evaluating")) |}
    else if String.eqb name "panics.tpl" then
      {| output := ""; completion := Panic "runtime error: index out of range" |}
    else
      {| output := "// " +:+ name +:+ nl; completion := Return None |}.

Definition sample_list (names : list string) : templateList :=
  {| Template := sample_template; Templates := names |}.

Definition sample_imports : importers_Collection :=
  {| All := {| Standard := [quoted "fmt"]; ThirdParty := [] |};
     Test := {| Standard := [quoted "testing"]; ThirdParty := [] |};
     Singleton := ∅;
     TestSingleton := ∅;
     BasedOnType := {[ "string" := {| Standard := [quoted "strings"]; ThirdParty := [] |} ]} |}.

Definition sample_table : table :=
  {| Name := "users";
     Columns := [ {| Type_ := "int" |}; {| Type_ := "string" |} ];
     IsJoinTable := false |}.

Definition sample_data : templateData := {| Table := sample_table |}.

Definition join_data : templateData :=
  {| Table := {| Name := "user_tags"; Columns := []; IsJoinTable := true |} |}.

Definition sample_config : config :=
  {| PkgName := "models"; OutFolder := "out"; Imports := sample_imports |}.

(** A state whose four template lists hold the given names. *)
Definition sample_state (normal test singleton singletonTest : list string) : State :=
  {| Config := sample_config;
     Templates_ := sample_list normal;
     TestTemplates := sample_list test;
     SingletonTemplates := sample_list singleton;
     SingletonTestTemplates := sample_list singletonTest |}.

(** A world with leftovers of an earlier file in the shared buffer. *)
Definition sample_world : World :=
  {| templateByteBuffer := "package stale";
     files := {[ "out/old.go" := "package models" ]};
     unwritable := {[ "out/locked.go" ]};
     executed := [];
     writeCalls := [] |}.

(** The call generateOutput makes for two templates, and one whose second
    template fails. *)
Definition sample_request : executeTemplateData :=
  {| state := sample_state ["a.tpl"; "b.tpl"] [] [] [];
     data := sample_data;
     templates := sample_list ["a.tpl"; "b.tpl"];
     importSet := All sample_imports;
     importNamedSet := nil_Map;
     combineImportsOnType := true;
     fileSuffix := ".go" |}.

Definition failing_request : executeTemplateData :=
  {| state := sample_state ["a.tpl"; "broken.tpl"; "c.tpl"] [] [] [];
     data := sample_data;
     templates := sample_list ["a.tpl"; "broken.tpl"; "c.tpl"];
     importSet := All sample_imports;
     importNamedSet := nil_Map;
     combineImportsOnType := true;
     fileSuffix := ".go" |}.

(** Fifty numbered comment lines. *)
Definition fifty_lines : string :=
  concat_strings (map (fun i : Z => "// line " +:+ pretty i +:+ nl) (seqZ 1 50)).


(** ** Further vocabulary *)

(** No byte of [s] is [c]. *)
Fixpoint free_of (c : ascii) (s : string) : bool :=
  match s with
  | "" => true
  | String d s' => negb (Ascii.eqb d c) && free_of c s'
  end.

(** No byte of [s] is a digit. *)
Fixpoint digit_free (s : string) : bool :=
  match s with
  | "" => true
  | String c s' => negb (is_digit c) && digit_free s'
  end.

Section SingletonFiles.
Context `{Collaborators}.

(** The path of the file of one singleton template. *)
Definition singleton_path (e : executeTemplateData) (tplName : string) : string :=
  filepath_Join (OutFolder (Config (state e)))
    (singletonFName tplName +:+ fileSuffix e).

(** The path of the file of an entity. *)
Definition entity_path (e : executeTemplateData) : string :=
  filepath_Join (OutFolder (Config (state e)))
    (Name (Table (data e)) +:+ fileSuffix e).

(** What the file writer is given for one singleton template whose
    rendering succeeded: the formatted bytes, or nothing when the formatter
    rejects the buffer. *)
Definition singleton_written (e : executeTemplateData) (tplName : string)
    : list (string * string) :=
  match format_Source (singleton_assembled e tplName) with
  | inl byt => [(singleton_path e tplName, byt)]
  | inr _ => []
  end.

(** The round of one singleton template goes through: the template
    renders, the formatter accepts the buffer and the file can be written. *)
Definition singleton_ok (e : executeTemplateData) (u : gset string)
    (tplName : string) : bool :=
  succeeds (Template (templates e) tplName (data e)) &&
  match format_Source (singleton_assembled e tplName) with
  | inl _ => bool_decide (singleton_path e tplName ∉ u)
  | inr _ => false
  end.

End SingletonFiles.


Definition empty_request : executeTemplateData :=
  {| state := sample_state [] [] [] [];
     data := sample_data;
     templates := sample_list [];
     importSet := All sample_imports;
     importNamedSet := nil_Map;
     combineImportsOnType := true;
     fileSuffix := ".go" |}.

(** The call generateSingletonOutput makes for the given template names. *)
Definition singleton_request (names : list string) : executeTemplateData :=
  {| state := sample_state [] [] names [];
     data := sample_data;
     templates := sample_list names;
     importSet := zero_Set;
     importNamedSet := Singleton sample_imports;
     combineImportsOnType := false;
     fileSuffix := ".go" |}.

(** * Properties *)

(** ** Strings *)

Lemma app_cons c s t : String c s +:+ t = String c (s +:+ t).
Proof. reflexivity. Qed.

Lemma app_nil_l s : "" +:+ s = s.
Proof. reflexivity. Qed.

Lemma app_nil_r s : s +:+ "" = s.
Proof. induction s as [|c s IH]; [done|]. by rewrite app_cons, IH. Qed.

Lemma app_assoc s t u : (s +:+ t) +:+ u = s +:+ (t +:+ u).
Proof. induction s as [|c s IH]; [done|]. by rewrite !app_cons, IH. Qed.

Lemma length_app s t :
  String.length (s +:+ t) = (String.length s + String.length t)%nat.
Proof. induction s as [|c s IH]; [done|]. rewrite app_cons. simpl. by rewrite IH. Qed.



(** ** The name of a singleton file *)









(** ** Worlds *)

Lemma World_eq (w w' : World) :
  templateByteBuffer w = templateByteBuffer w' ->
  files w = files w' ->
  unwritable w = unwritable w' ->
  executed w = executed w' ->
  writeCalls w = writeCalls w' ->
  w = w'.
Proof. destruct w, w'; simpl; intros; by subst. Qed.

(** ** executeTemplate *)

Lemma executeTemplate_eq t name d w :
  executeTemplate t name d w =
  (Return (executeTemplate_result t name d),
   Write (output (t name d)) (log_executed name w)).
Proof.
  unfold executeTemplate, executeTemplate_result, ExecuteTemplate.
  by destruct (completion (t name d)) as [[err|]|r].
Qed.

(** C2: whatever way the rendering of a template ends, executeTemplate
    returns; when the rendering panics with payload [r], it returns an
    ordinary error whose message names the template and carries [r]. *)
Theorem executeTemplate_recovers t name d w :
  (exists res, fst (executeTemplate t name d w) = Return res) /\
  (forall r, completion (t name d) = Panic r ->
     exists err,
       fst (executeTemplate t name d w) = Return (Some err) /\
       Error err =
         "failed to execute template: " +:+ name +:+ nl +:+ "panic: " +:+ r +:+ nl).
Proof.
  rewrite executeTemplate_eq. simpl. split; [by eexists|].
  intros r Hr. unfold executeTemplate_result. rewrite Hr. by eexists.
Qed.

Lemma executeTemplate_recovers_witness :
  exists err,
    fst (executeTemplate sample_template "panics.tpl" sample_data sample_world)
    = Return (Some err) /\
    Error err =
      "failed to execute template: " +:+ "panics.tpl" +:+ nl +:+
      "panic: " +:+ "runtime error: index out of range" +:+ nl.
Proof.
  apply (proj2 (executeTemplate_recovers sample_template "panics.tpl" _ _)).
  reflexivity.
Defined.

(** ** The loop over the templates of one file *)

Lemma executeTemplates_loop_eq t d names w :
  executeTemplates_loop t d names w =
  (Return (first_failure t d names),
   {| templateByteBuffer := templateByteBuffer w +:+ ran_output t d names;
      files := files w;
      unwritable := unwritable w;
      executed := executed w ++ ran_names t d names;
      writeCalls := writeCalls w |}).
Proof.
  revert w. induction names as [|name more IH]; intros w.
  - simpl. f_equal. apply World_eq; simpl; [|done..| |done].
    + unfold ran_output, rendered_bodies. simpl. by rewrite app_nil_r.
    + by rewrite (right_id_L [] (++)).
  - simpl. rewrite executeTemplate_eq.
    unfold ran_output, rendered_bodies. simpl.
    destruct (executeTemplate_result t name d) as [err|] eqn:Hres.
    + f_equal. apply World_eq; simpl; [|done..].
      by rewrite app_nil_r.
    + rewrite IH. f_equal. apply World_eq; simpl; [|done..| |done].
      * unfold ran_output, rendered_bodies. by rewrite app_assoc.
      * by rewrite <- (assoc_L (++)).
Qed.

Lemma executeTemplate_result_succeeds t name d :
  succeeds (t name d) = true <-> executeTemplate_result t name d = None.
Proof.
  unfold succeeds, executeTemplate_result.
  by destruct (completion (t name d)) as [[err|]|r].
Qed.

Lemma all_succeed_first_failure tl d :
  all_succeed tl d = true ->
  first_failure (Template tl) d (Templates tl) = None /\
  ran_names (Template tl) d (Templates tl) = Templates tl.
Proof.
  unfold all_succeed. induction (Templates tl) as [|name more IH]; [done|].
  simpl. intros [Hn Hm]%andb_prop.
  apply executeTemplate_result_succeeds in Hn. rewrite Hn.
  destruct (IH Hm) as [-> ->]. done.
Qed.

Lemma some_failure_first_failure t d names name :
  In name names -> succeeds (t name d) = false ->
  exists err, first_failure t d names = Some err.
Proof.
  intros Hin Hfail. induction names as [|n more IH]; [done|].
  simpl. destruct (executeTemplate_result t n d) as [err|] eqn:Hres; [by eexists|].
  destruct Hin as [->|Hin]; [|by apply IH].
  apply executeTemplate_result_succeeds in Hres. congruence.
Qed.

(** ** Header, validation and writing *)

Section Writing.
Context `{Collaborators}.

Lemma Set_copy (s : importers_Set) :
  {| Standard := Standard s; ThirdParty := ThirdParty s |} = s.
Proof. by destruct s. Qed.

Lemma header_world pkgName imps w :
  writeImports imps (writePackageName pkgName (writeFileDisclaimer (Reset w))) =
  assembled_world (fileLayout pkgName (Set_Format imps) "") [] w.
Proof.
  unfold writeImports, writePackageName, writeFileDisclaimer, Reset, Write,
    assembled_world, set_buffer, fileLayout, import_block.
  destruct (Set_Format imps) as [|c impStr]; simpl;
    apply World_eq; simpl; try done; try (by rewrite (right_id_L [] (++))).
  rewrite !app_assoc, app_nil_r. reflexivity.
Qed.

Lemma fileLayout_bodies pkgName impStr bodies :
  fileLayout pkgName impStr "" +:+ bodies = fileLayout pkgName impStr bodies.
Proof. unfold fileLayout. by rewrite !app_assoc. Qed.

Lemma formatBuffer_frame w :
  files (snd (formatBuffer w)) = files w /\
  unwritable (snd (formatBuffer w)) = unwritable w /\
  executed (snd (formatBuffer w)) = executed w /\
  writeCalls (snd (formatBuffer w)) = writeCalls w.
Proof.
  unfold formatBuffer.
  destruct (format_Source (Bytes w)) as [out|err]; [done|].
  destruct (rgxSyntaxError_FindStringSubmatch (Error err)); [|done].
  by destruct (Scanner_lines (templateByteBuffer w)).
Qed.

Lemma formatBuffer_fails w err :
  format_Source (Bytes w) = inr err ->
  exists err', fst (formatBuffer w) = inr err'.
Proof.
  intros Hf. unfold formatBuffer. rewrite Hf.
  destruct (rgxSyntaxError_FindStringSubmatch (Error err)); [|by eexists].
  destruct (Scanner_lines (templateByteBuffer w)). by eexists.
Qed.

(** A buffer the formatter rejects is not written. *)
Lemma writeFile_format_failure outFolder fileName w err :
  format_Source (Bytes w) = inr err ->
  exists err' w',
    writeFile outFolder fileName w = (Some err', w') /\
    files w' = files w /\ unwritable w' = unwritable w /\
    executed w' = executed w /\ writeCalls w' = writeCalls w.
Proof.
  intros Hf. unfold writeFile.
  destruct (formatBuffer_fails w err Hf) as [err' Herr'].
  destruct (formatBuffer_frame w) as (Hfiles & Hunw & Hex & Hcalls).
  destruct (formatBuffer w) as [[out|e'] w']; simpl in *; [done|].
  by exists e', w'.
Qed.

(** A buffer the formatter accepts is written formatted, as a whole, unless
    the file cannot be opened. *)
Lemma writeFile_format_success outFolder fileName w byt :
  format_Source (Bytes w) = inl byt ->
  writeFile outFolder fileName w =
  let path := filepath_Join outFolder fileName in
  if decide (path ∈ unwritable w)
  then (Some (Wrap (External ("open " +:+ path +:+ ": permission denied"))
                ("failed to write output file " +:+ path)),
        log_call path byt w)
  else (None, set_files (<[path := byt]> (files w)) (log_call path byt w)).
Proof.
  intros Hf. unfold writeFile, formatBuffer. rewrite Hf. simpl.
  unfold testHarnessWriteFile, ioutil_WriteFile. simpl.
  by destruct (decide (filepath_Join outFolder fileName ∈ unwritable w)).
Qed.

(** executeTemplates outside the join-table case: the header, the templates
    up to the first failure, then validation and the write. *)
Lemma executeTemplates_eq e w :
  IsJoinTable (Table (data e)) = false ->
  executeTemplates e w =
  let names := ran_names (Template (templates e)) (data e) (Templates (templates e)) in
  let w1 := assembled_world (assembled e names) names w in
  match first_failure (Template (templates e)) (data e) (Templates (templates e)) with
  | Some err => (Return (Some err), w1)
  | None =>
      returned (writeFile (OutFolder (Config (state e)))
                  (Name (Table (data e)) +:+ fileSuffix e) w1)
  end.
Proof.
  intros Hjoin. unfold executeTemplates. rewrite Hjoin.
  rewrite Set_copy.
  change (if combineImportsOnType e then _ else importSet e)
    with (effective_imports e).
  rewrite header_world, executeTemplates_loop_eq. simpl.
  unfold ran_output. rewrite fileLayout_bodies.
  fold (assembled e (ran_names (Template (templates e)) (data e) (Templates (templates e)))).
  unfold assembled_world. simpl. rewrite (right_id_L [] (++)).
  destruct (first_failure _ _ _) as [err|]; [done|].
  unfold returned.
  by destruct (writeFile _ _ _) as [[err|] w'].
Qed.

End Writing.

(** ** Per-entity assembly *)

Section PerEntity.
Context `{Collaborators}.

Lemma all_succeed_false tl d :
  all_succeed tl d = false ->
  exists err, first_failure (Template tl) d (Templates tl) = Some err.
Proof.
  unfold all_succeed. induction (Templates tl) as [|name more IH]; [done|].
  simpl. destruct (executeTemplate_result (Template tl) name d) as [err|] eqn:Hres;
    [by eexists|].
  apply executeTemplate_result_succeeds in Hres. rewrite Hres. simpl. apply IH.
Qed.

(** executeTemplates with every template succeeding: one validation and
    write of the assembled buffer. *)
Lemma executeTemplates_assembled e w :
  IsJoinTable (Table (data e)) = false ->
  all_succeed (templates e) (data e) = true ->
  executeTemplates e w =
  returned (writeFile (OutFolder (Config (state e)))
              (Name (Table (data e)) +:+ fileSuffix e)
              (assembled_world (assembled e (Templates (templates e)))
                 (Templates (templates e)) w)).
Proof.
  intros Hjoin Hall. rewrite executeTemplates_eq by done. simpl.
  by destruct (all_succeed_first_failure _ _ Hall) as [-> ->].
Qed.

(** C1: when a template of the entity fails, or the assembled buffer is
    rejected by the formatter, executeTemplates returns an error, the file
    writer is not called and the file system is left as it was. *)
Theorem executeTemplates_all_or_nothing e w :
  IsJoinTable (Table (data e)) = false ->
  (exists name, In name (Templates (templates e)) /\
                succeeds (Template (templates e) name (data e)) = false) \/
  (exists err, format_Source (assembled e (Templates (templates e))) = inr err) ->
  exists err w',
    executeTemplates e w = (Return (Some err), w') /\
    writeCalls w' = writeCalls w /\ files w' = files w.
Proof.
  intros Hjoin Hfail.
  destruct (all_succeed (templates e) (data e)) eqn:Hall.
  - destruct Hfail as [(name & Hin & Hname)|[err Hfmt]].
    + unfold all_succeed in Hall. rewrite forallb_forall in Hall.
      specialize (Hall name Hin). congruence.
    + rewrite executeTemplates_assembled by done.
      destruct (writeFile_format_failure (OutFolder (Config (state e)))
                  (Name (Table (data e)) +:+ fileSuffix e)
                  (assembled_world (assembled e (Templates (templates e)))
                     (Templates (templates e)) w) err Hfmt)
        as (err' & w' & -> & Hfiles & _ & _ & Hcalls).
      by exists err', w'.
  - rewrite executeTemplates_eq by done. simpl.
    destruct (all_succeed_false _ _ Hall) as [err ->].
    by eexists _, _.
Qed.

(** C5: a request for a join table returns no error and leaves the world
    untouched: no template is run, nothing is written. *)
Theorem join_table_is_noop st d w :
  IsJoinTable (Table d) = true ->
  generateOutput st d w = (Return None, w) /\
  generateTestOutput st d w = (Return None, w) /\
  generateSingletonOutput st d w = (Return None, w) /\
  generateSingletonTestOutput st d w = (Return None, w).
Proof.
  intros Hjoin.
  unfold generateOutput, generateTestOutput, generateSingletonOutput,
    generateSingletonTestOutput, executeTemplates, executeSingletonTemplates.
  simpl. by rewrite Hjoin.
Qed.

(** C8: when the formatter fails and its message holds no line number, the
    diagnostic is the formatter's message under a fixed prefix, with no
    excerpt, and nothing is written. *)
Theorem formatBuffer_without_line_number outFolder fileName w err :
  format_Source (Bytes w) = inr err ->
  rgxSyntaxError_FindStringSubmatch (Error err) = None ->
  formatBuffer w = (inr (Wrap err "failed to format template"), w) /\
  Error (Wrap err "failed to format template")
    = "failed to format template: " +:+ Error err /\
  writeFile outFolder fileName w = (Some (Wrap err "failed to format template"), w).
Proof.
  intros Hf Hm. unfold writeFile, formatBuffer. rewrite Hf, Hm. done.
Qed.

End PerEntity.

Lemma executeTemplates_all_or_nothing_witness :
  let C := sample_collaborators format_ok in
  IsJoinTable (Table (data failing_request)) = false /\
  In "broken.tpl" (Templates (templates failing_request)) /\
  succeeds (Template (templates failing_request) "broken.tpl" (data failing_request)) = false /\
  exists err w',
    executeTemplates failing_request sample_world = (Return (Some err), w') /\
    writeCalls w' = writeCalls sample_world /\
    files w' = files sample_world.
Proof.
  intros C. split; [reflexivity|]. split; [simpl; tauto|]. split; [reflexivity|].
  apply (executeTemplates_all_or_nothing failing_request sample_world);
    [reflexivity|].
  left. exists "broken.tpl". split; [simpl; tauto | reflexivity].
Defined.

Lemma join_table_is_noop_witness :
  let C := sample_collaborators format_ok in
  let st := sample_state ["a.tpl"] ["a_test.tpl"] ["boil_types.tpl"] ["boil_main_test.tpl"] in
  IsJoinTable (Table join_data) = true /\
  generateOutput st join_data sample_world = (Return None, sample_world) /\
  generateTestOutput st join_data sample_world = (Return None, sample_world) /\
  generateSingletonOutput st join_data sample_world = (Return None, sample_world) /\
  generateSingletonTestOutput st join_data sample_world = (Return None, sample_world).
Proof.
  intros C st. split; [reflexivity|].
  apply (join_table_is_noop st join_data sample_world). reflexivity.
Defined.

Lemma formatBuffer_without_line_number_witness :
  let C := sample_collaborators (format_fails "source is not valid Go") in
  let err := External "source is not valid Go" in
  format_Source (Bytes sample_world) = inr err /\
  rgxSyntaxError_FindStringSubmatch (Error err) = None /\
  formatBuffer sample_world = (inr (Wrap err "failed to format template"), sample_world) /\
  Error (Wrap err "failed to format template")
    = "failed to format template: " +:+ Error err /\
  writeFile "out" "users.go" sample_world
    = (Some (Wrap err "failed to format template"), sample_world).
Proof.
  intros C err. split; [reflexivity|]. split; [reflexivity|].
  apply (formatBuffer_without_line_number "out" "users.go" sample_world err);
    reflexivity.
Defined.

(** ** Layout of the assembled buffer *)

Section Layout.
Context `{Collaborators}.

(** One round of the loop of executeSingletonTemplates. *)
Lemma executeSingletonTemplates_loop_cons e tplName more w :
  executeSingletonTemplates_loop e (tplName :: more) w =
  let w1 := assembled_world (singleton_assembled e tplName) [tplName] w in
  match executeTemplate_result (Template (templates e)) tplName (data e) with
  | Some err => (Return (Some err), w1)
  | None =>
      match writeFile (OutFolder (Config (state e)))
              (singletonFName tplName +:+ fileSuffix e) w1 with
      | (Some err, w2) => (Return (Some err), w2)
      | (None, w2) => executeSingletonTemplates_loop e more w2
      end
  end.
Proof.
  cbn [executeSingletonTemplates_loop].
  rewrite Set_copy, header_world, executeTemplate_eq.
  fold (singleton_imports e tplName).
  assert (Write (output (Template (templates e) tplName (data e)))
            (log_executed tplName
               (assembled_world
                  (fileLayout (PkgName (Config (state e)))
                     (Set_Format (singleton_imports e tplName)) "") [] w))
          = assembled_world (singleton_assembled e tplName) [tplName] w) as ->.
  { apply World_eq; simpl; try done.
    - apply fileLayout_bodies.
    - by rewrite (right_id_L [] (++)). }
  done.
Qed.

(** C7: the buffer handed to validation holds the two banner lines, a
    blank line, the package clause, the import block when the import set
    formats to a non-empty string, and then the template bodies in the
    order of the template list; for a singleton file the body of its one
    template. *)
Theorem assembled_buffer_layout e w tplName more :
  IsJoinTable (Table (data e)) = false ->
  all_succeed (templates e) (data e) = true ->
  succeeds (Template (templates e) tplName (data e)) = true ->
  executeTemplates e w =
    returned
      (writeFile (OutFolder (Config (state e)))
         (Name (Table (data e)) +:+ fileSuffix e)
         (assembled_world
            (banner_line_1 +:+ nl +:+
             banner_line_2 +:+ nl +:+
             nl +:+
             "package " +:+ PkgName (Config (state e)) +:+ nl +:+
             nl +:+
             import_block (Set_Format (effective_imports e)) +:+
             rendered_bodies (Template (templates e)) (data e)
               (Templates (templates e)))
            (Templates (templates e)) w)) /\
  executeSingletonTemplates_loop e (tplName :: more) w =
    match writeFile (OutFolder (Config (state e)))
            (singletonFName tplName +:+ fileSuffix e)
            (assembled_world
               (banner_line_1 +:+ nl +:+
                banner_line_2 +:+ nl +:+
                nl +:+
                "package " +:+ PkgName (Config (state e)) +:+ nl +:+
                nl +:+
                import_block (Set_Format (singleton_imports e tplName)) +:+
                output (Template (templates e) tplName (data e)))
               [tplName] w) with
    | (Some err, w2) => (Return (Some err), w2)
    | (None, w2) => executeSingletonTemplates_loop e more w2
    end /\
  import_block "" = "" /\
  (forall impStr, impStr <> "" -> import_block impStr = impStr +:+ nl).
Proof.
  intros Hjoin Hall Hone. split; [|split; [|split]].
  - by rewrite executeTemplates_assembled.
  - rewrite executeSingletonTemplates_loop_cons. simpl.
    apply executeTemplate_result_succeeds in Hone. by rewrite Hone.
  - done.
  - by intros [|c s] Hne.
Qed.

(** C10: generateOutput formats the import set widened by the column
    types of the entity; generateTestOutput formats the plain test set, and
    what it does is the same whatever the type-based rules are. *)
Theorem type_imports_only_for_normal_output st d w :
  IsJoinTable (Table d) = false ->
  all_succeed (Templates_ st) d = true ->
  all_succeed (TestTemplates st) d = true ->
  generateOutput st d w =
    returned
      (writeFile (OutFolder (Config st)) (Name (Table d) +:+ ".go")
         (assembled_world
            (fileLayout (PkgName (Config st))
               (Set_Format
                  (AddTypeImports (All (Imports (Config st)))
                     (BasedOnType (Imports (Config st)))
                     (map Type_ (Columns (Table d)))))
               (rendered_bodies (Template (Templates_ st)) d
                  (Templates (Templates_ st))))
            (Templates (Templates_ st)) w)) /\
  generateTestOutput st d w =
    returned
      (writeFile (OutFolder (Config st)) (Name (Table d) +:+ "_test.go")
         (assembled_world
            (fileLayout (PkgName (Config st))
               (Set_Format (Test (Imports (Config st))))
               (rendered_bodies (Template (TestTemplates st)) d
                  (Templates (TestTemplates st))))
            (Templates (TestTemplates st)) w)) /\
  (forall basedOnType,
     generateTestOutput (with_BasedOnType basedOnType st) d w =
     generateTestOutput st d w).
Proof.
  intros Hjoin Hall Htest. split; [|split].
  - unfold generateOutput. by rewrite executeTemplates_assembled.
  - unfold generateTestOutput. by rewrite executeTemplates_assembled.
  - intros m. reflexivity.
Qed.

End Layout.

Lemma assembled_buffer_layout_witness :
  let C := sample_collaborators format_ok in
  IsJoinTable (Table (data sample_request)) = false /\
  all_succeed (templates sample_request) (data sample_request) = true /\
  succeeds (Template (templates sample_request) "a.tpl" (data sample_request)) = true /\
  executeTemplates sample_request sample_world =
    returned
      (writeFile "out" "users.go"
         (assembled_world
            (banner_line_1 +:+ nl +:+ banner_line_2 +:+ nl +:+ nl +:+
             "package " +:+ "models" +:+ nl +:+ nl +:+
             import_block (Set_Format (effective_imports sample_request)) +:+
             ("// a.tpl" +:+ nl +:+ "// b.tpl" +:+ nl))
            ["a.tpl"; "b.tpl"] sample_world)).
Proof.
  intros C. split; [reflexivity|]. split; [reflexivity|]. split; [reflexivity|].
  apply (assembled_buffer_layout sample_request sample_world "a.tpl" []);
    reflexivity.
Defined.

Lemma type_imports_only_for_normal_output_witness :
  let C := sample_collaborators format_ok in
  let st := sample_state ["a.tpl"; "b.tpl"] ["a_test.tpl"] [] [] in
  IsJoinTable (Table sample_data) = false /\
  all_succeed (Templates_ st) sample_data = true /\
  all_succeed (TestTemplates st) sample_data = true /\
  files (snd (generateOutput st sample_data sample_world)) !! "out/users.go"
    = Some (fileLayout "models"
              (sample_Format {| Standard := [quoted "fmt"; quoted "strings"];
                                ThirdParty := [] |})
              ("// a.tpl" +:+ nl +:+ "// b.tpl" +:+ nl)) /\
  files (snd (generateTestOutput st sample_data sample_world)) !! "out/users_test.go"
    = Some (fileLayout "models"
              (sample_Format {| Standard := [quoted "testing"]; ThirdParty := [] |})
              ("// a_test.tpl" +:+ nl)).
Proof.
  intros C st. split; [reflexivity|]. split; [reflexivity|]. split; [reflexivity|].
  destruct (type_imports_only_for_normal_output st sample_data sample_world)
    as (Hgen & Htest & _); [reflexivity..|].
  rewrite Hgen, Htest. split; vm_compute; reflexivity.
Defined.

(** ** Which files a call writes *)

Lemma calls_between_none w w' :
  writeCalls w' = writeCalls w -> calls_between w w' [].
Proof. unfold calls_between. intros ->. by rewrite (right_id_L [] (++)). Qed.

Lemma calls_between_trans w1 w2 w3 calls1 calls2 :
  calls_between w1 w2 calls1 -> calls_between w2 w3 calls2 ->
  calls_between w1 w3 (calls1 ++ calls2).
Proof.
  unfold calls_between. intros H12 H23. by rewrite H23, H12, (assoc_L (++)).
Qed.

Section Written.
Context `{Collaborators}.

(** writeFile calls the file writer at most once, for the joined path. *)
Lemma writeFile_calls outFolder fileName w :
  unwritable (snd (writeFile outFolder fileName w)) = unwritable w /\
  exists calls,
    calls_between w (snd (writeFile outFolder fileName w)) calls /\
    forall p c, In (p, c) calls -> p = filepath_Join outFolder fileName.
Proof.
  destruct (format_Source (Bytes w)) as [byt|err] eqn:Hf.
  - rewrite (writeFile_format_success _ _ _ _ Hf). simpl.
    destruct (decide (filepath_Join outFolder fileName ∈ unwritable w));
      (split; [done|]);
      exists [(filepath_Join outFolder fileName, byt)];
      (split; [done|]); by intros p c [[= <- <-]|[]].
  - destruct (writeFile_format_failure outFolder fileName w err Hf)
      as (err' & w' & -> & Hfiles & Hunw & _ & Hcalls).
    simpl. split; [done|]. exists []. split; [by apply calls_between_none|done].
Qed.

Lemma executeTemplates_calls e w :
  exists calls,
    calls_between w (snd (executeTemplates e w)) calls /\
    forall p c, In (p, c) calls ->
      p = filepath_Join (OutFolder (Config (state e)))
            (Name (Table (data e)) +:+ fileSuffix e).
Proof.
  destruct (IsJoinTable (Table (data e))) eqn:Hjoin.
  - unfold executeTemplates. rewrite Hjoin. exists [].
    split; [by apply calls_between_none|done].
  - rewrite executeTemplates_eq by done. simpl.
    destruct (first_failure _ _ _) as [err|].
    + exists []. split; [by apply calls_between_none|done].
    + apply (proj2 (writeFile_calls _ _
                (assembled_world
                   (assembled e (ran_names (Template (templates e)) (data e)
                                   (Templates (templates e))))
                   (ran_names (Template (templates e)) (data e)
                      (Templates (templates e))) w))).
Qed.

Lemma executeSingletonTemplates_loop_calls e names w :
  unwritable (snd (executeSingletonTemplates_loop e names w)) = unwritable w /\
  exists calls,
    calls_between w (snd (executeSingletonTemplates_loop e names w)) calls /\
    forall p c, In (p, c) calls ->
      exists tplName, In tplName names /\
        p = filepath_Join (OutFolder (Config (state e)))
              (singletonFName tplName +:+ fileSuffix e).
Proof.
  revert w. induction names as [|tplName more IH]; intros w.
  - simpl. split; [done|]. exists []. split; [by apply calls_between_none|done].
  - rewrite executeSingletonTemplates_loop_cons. simpl.
    destruct (executeTemplate_result _ _ _) as [err|].
    { simpl. split; [done|]. exists []. split; [by apply calls_between_none|done]. }
    set (w1 := assembled_world (singleton_assembled e tplName) [tplName] w).
    destruct (writeFile_calls (OutFolder (Config (state e)))
                (singletonFName tplName +:+ fileSuffix e) w1)
      as (Hunw & calls1 & Hcalls1 & Hpath1).
    destruct (writeFile _ _ w1) as [[err|] w2]; simpl in *.
    + split; [done|]. exists calls1. split; [done|].
      intros p c Hin. exists tplName. split; [by left|]. by eapply Hpath1.
    + destruct (IH w2) as (Hunw2 & calls2 & Hcalls2 & Hpath2).
      split; [congruence|]. exists (calls1 ++ calls2).
      split; [by apply (calls_between_trans w w2)|].
      intros p c [Hin|Hin]%in_app_or.
      * exists tplName. split; [by left|]. by eapply Hpath1.
      * destruct (Hpath2 p c Hin) as (tpl & Htpl & ->).
        exists tpl. split; [by right|done].
Qed.

Lemma executeSingletonTemplates_calls e w :
  exists calls,
    calls_between w (snd (executeSingletonTemplates e w)) calls /\
    forall p c, In (p, c) calls ->
      exists tplName, In tplName (Templates (templates e)) /\
        p = filepath_Join (OutFolder (Config (state e)))
              (singletonFName tplName +:+ fileSuffix e).
Proof.
  unfold executeSingletonTemplates.
  destruct (IsJoinTable (Table (data e))).
  - exists []. split; [by apply calls_between_none|done].
  - apply executeSingletonTemplates_loop_calls.
Qed.

(** C6 (as amended): a per-entity test file is named after the entity with
    the suffix [_test.go], a per-entity file with [.go], and these names
    differ; a singleton file is named after its template with the suffix
    [.go], for test output as for normal output. *)
Theorem output_file_names st d w :
  (exists calls,
     calls_between w (snd (generateOutput st d w)) calls /\
     forall p c, In (p, c) calls ->
       p = filepath_Join (OutFolder (Config st)) (Name (Table d) +:+ ".go")) /\
  (exists calls,
     calls_between w (snd (generateTestOutput st d w)) calls /\
     forall p c, In (p, c) calls ->
       p = filepath_Join (OutFolder (Config st)) (Name (Table d) +:+ "_test.go")) /\
  (exists calls,
     calls_between w (snd (generateSingletonOutput st d w)) calls /\
     forall p c, In (p, c) calls ->
       exists tplName, In tplName (Templates (SingletonTemplates st)) /\
         p = filepath_Join (OutFolder (Config st))
               (singletonFName tplName +:+ ".go")) /\
  (exists calls,
     calls_between w (snd (generateSingletonTestOutput st d w)) calls /\
     forall p c, In (p, c) calls ->
       exists tplName, In tplName (Templates (SingletonTestTemplates st)) /\
         p = filepath_Join (OutFolder (Config st))
               (singletonFName tplName +:+ ".go")) /\
  Name (Table d) +:+ "_test.go" <> Name (Table d) +:+ ".go".
Proof.
  split; [|split; [|split; [|split]]].
  - apply executeTemplates_calls.
  - apply executeTemplates_calls.
  - apply executeSingletonTemplates_calls.
  - apply executeSingletonTemplates_calls.
  - intros Heq. by apply (inj (String.app _)) in Heq.
Qed.

End Written.

Lemma output_file_names_witness :
  let C := sample_collaborators format_ok in
  let st := sample_state ["a.tpl"] ["a_test.tpl"] [] [] in
  exists calls,
    calls_between sample_world
      (snd (generateTestOutput st sample_data sample_world)) calls /\
    forall p c, In (p, c) calls ->
      p = filepath_Join (OutFolder (Config st))
            (Name (Table sample_data) +:+ "_test.go").
Proof.
  intros C st.
  exact (proj1 (proj2 (output_file_names st sample_data sample_world))).
Defined.

(** The file of a singleton test template carries the plain suffix: it is
    written to the very path the normal singleton output uses. *)
Lemma singleton_test_output_has_plain_suffix :
  let C := sample_collaborators format_ok in
  let st := sample_state [] [] ["01_helpers.tmpl"] ["01_helpers.tmpl"] in
  let w' := snd (generateSingletonTestOutput st sample_data sample_world) in
  fst (generateSingletonTestOutput st sample_data sample_world) = Return None /\
  map fst (writeCalls w') = ["out/helpers.go"] /\
  is_Some (files w' !! "out/helpers.go") /\
  files w' !! "out/helpers_test.go" = None /\
  map fst (writeCalls (snd (generateSingletonOutput st sample_data sample_world)))
    = ["out/helpers.go"].
Proof.
  intros C st w'. split; [reflexivity|]. split; [reflexivity|].
  split; [by eexists|]. split; reflexivity.
Qed.

(** ** Regeneration *)

Lemma apply_writes_app ws1 ws2 fs :
  apply_writes (ws1 ++ ws2) fs = apply_writes ws2 (apply_writes ws1 fs).
Proof.
  revert fs. induction ws1 as [|[p c] ws1 IH]; intros fs; [done|]. apply IH.
Qed.

Lemma apply_writes_union ws (fs : gmap string string) :
  apply_writes ws fs = apply_writes ws ∅ ∪ fs.
Proof.
  revert fs. induction ws as [|[p c] ws IH]; intros fs; simpl.
  - by rewrite (left_id_L ∅ (∪)).
  - rewrite (IH (<[p:=c]> fs)), (IH (<[p:=c]> ∅)).
    rewrite (insert_union_singleton_l fs), insert_empty.
    by rewrite (assoc_L (∪)).
Qed.

(** Writing the same files again changes nothing. *)
Lemma apply_writes_twice ws (fs : gmap string string) :
  apply_writes ws (apply_writes ws fs) = apply_writes ws fs.
Proof.
  rewrite (apply_writes_union ws (apply_writes ws fs)), (apply_writes_union ws fs).
  by rewrite (assoc_L (∪)), (idemp_L (∪)).
Qed.

(** Closes the case of a run that returns without calling the writer. *)
Ltac fixed_without_calls :=
  by split; [|split; [apply calls_between_none|]].

Section Regeneration.
Context `{Collaborators}.

Lemma formatBuffer_buffer w w' :
  templateByteBuffer w = templateByteBuffer w' ->
  fst (formatBuffer w) = fst (formatBuffer w').
Proof.
  intros Hb. unfold formatBuffer, Bytes. rewrite Hb.
  destruct (format_Source (templateByteBuffer w')) as [out|err]; [done|].
  destruct (rgxSyntaxError_FindStringSubmatch (Error err)); [|done].
  by destruct (Scanner_lines (templateByteBuffer w')).
Qed.

Lemma writeFile_fixed outFolder fileName content u :
  exists res calls ws, forall w,
    templateByteBuffer w = content -> unwritable w = u ->
    fst (writeFile outFolder fileName w) = res /\
    calls_between w (snd (writeFile outFolder fileName w)) calls /\
    files (snd (writeFile outFolder fileName w)) = apply_writes ws (files w) /\
    unwritable (snd (writeFile outFolder fileName w)) = u.
Proof.
  destruct (format_Source content) as [byt|err] eqn:Hf.
  - destruct (decide (filepath_Join outFolder fileName ∈ u)) as [Hin|Hout].
    + exists (Some (Wrap (External ("open " +:+ filepath_Join outFolder fileName +:+
                                     ": permission denied"))
                      ("failed to write output file " +:+
                       filepath_Join outFolder fileName))),
             [(filepath_Join outFolder fileName, byt)], [].
      intros w Hb Hu. subst content u.
      rewrite (writeFile_format_success _ _ _ _ Hf). simpl.
      by rewrite decide_True.
    + exists None, [(filepath_Join outFolder fileName, byt)],
             [(filepath_Join outFolder fileName, byt)].
      intros w Hb Hu. subst content u.
      rewrite (writeFile_format_success _ _ _ _ Hf). simpl.
      by rewrite decide_False.
  - exists (Some (match fst (formatBuffer (set_buffer content
                                      {| templateByteBuffer := ""; files := ∅;
                                         unwritable := u; executed := [];
                                         writeCalls := [] |})) with
                  | inr err' => err'
                  | inl _ => err
                  end)), [], [].
    intros w Hb Hu. subst content.
    rewrite <- (formatBuffer_buffer w) by done.
    destruct (formatBuffer_fails w err Hf) as [err' Herr'].
    destruct (formatBuffer_frame w) as (Hfiles & Hunw & _ & Hcalls).
    unfold writeFile.
    destruct (formatBuffer w) as [[out|e'] w']; simpl in *; [done|].
    rewrite Hfiles, Hunw. fixed_without_calls.
Qed.

Lemma executeTemplates_fixed e : fixed_by_unwritable (executeTemplates e).
Proof.
  intros u. destruct (IsJoinTable (Table (data e))) eqn:Hjoin.
  - exists (Return None), [], []. intros w Hu.
    unfold executeTemplates. rewrite Hjoin.
    fixed_without_calls.
  - destruct (first_failure (Template (templates e)) (data e)
                (Templates (templates e))) as [err|] eqn:Hfirst.
    + exists (Return (Some err)), [], []. intros w Hu.
      rewrite executeTemplates_eq by done. simpl. rewrite Hfirst.
      fixed_without_calls.
    + destruct (writeFile_fixed (OutFolder (Config (state e)))
                  (Name (Table (data e)) +:+ fileSuffix e)
                  (assembled e (ran_names (Template (templates e)) (data e)
                                  (Templates (templates e)))) u)
        as (res & calls & ws & Hrun).
      exists (Return res), calls, ws. intros w Hu.
      rewrite executeTemplates_eq by done. simpl. rewrite Hfirst. simpl.
      destruct (Hrun (assembled_world
                        (assembled e (ran_names (Template (templates e)) (data e)
                                        (Templates (templates e))))
                        (ran_names (Template (templates e)) (data e)
                           (Templates (templates e))) w))
        as (-> & Hcalls & Hfiles & Hunw); done.
Qed.

Lemma executeSingletonTemplates_loop_fixed e names :
  fixed_by_unwritable (executeSingletonTemplates_loop e names).
Proof.
  induction names as [|tplName more IH]; intros u.
  - exists (Return None), [], []. intros w Hu.
    fixed_without_calls.
  - destruct (executeTemplate_result (Template (templates e)) tplName (data e))
      as [err|] eqn:Hres.
    + exists (Return (Some err)), [], []. intros w Hu.
      rewrite executeSingletonTemplates_loop_cons. simpl. rewrite Hres.
      fixed_without_calls.
    + destruct (writeFile_fixed (OutFolder (Config (state e)))
                  (singletonFName tplName +:+ fileSuffix e)
                  (singleton_assembled e tplName) u) as (res & calls & ws & Hrun).
      destruct res as [err|].
      * exists (Return (Some err)), calls, ws. intros w Hu.
        rewrite executeSingletonTemplates_loop_cons. simpl. rewrite Hres.
        destruct (Hrun (assembled_world (singleton_assembled e tplName)
                          [tplName] w)) as (Hfst & Hcalls & Hfiles & Hunw); [done..|].
        destruct (writeFile _ _ _) as [[err'|] w2]; simpl in *; [|done].
        by simplify_eq.
      * destruct (IH u) as (res2 & calls2 & ws2 & Hrest).
        exists res2, (calls ++ calls2), (ws ++ ws2). intros w Hu.
        rewrite executeSingletonTemplates_loop_cons. simpl. rewrite Hres.
        destruct (Hrun (assembled_world (singleton_assembled e tplName)
                          [tplName] w)) as (Hfst & Hcalls & Hfiles & Hunw); [done..|].
        destruct (writeFile _ _ _) as [[err'|] w2]; simpl in *; [done|].
        destruct (Hrest w2 Hunw) as (-> & Hcalls2 & -> & ->).
        split; [done|]. split; [by apply (calls_between_trans w w2)|].
        by rewrite apply_writes_app, Hfiles.
Qed.

Lemma executeSingletonTemplates_fixed e :
  fixed_by_unwritable (executeSingletonTemplates e).
Proof.
  intros u. unfold executeSingletonTemplates.
  destruct (IsJoinTable (Table (data e))).
  - exists (Return None), [], []. intros w Hu.
    fixed_without_calls.
  - apply executeSingletonTemplates_loop_fixed.
Qed.

(** Running such a call again right after itself repeats it: the same
    result, the same calls of the file writer, the same files. *)
Lemma fixed_by_unwritable_twice run w :
  fixed_by_unwritable run ->
  fst (run (snd (run w))) = fst (run w) /\
  (exists calls,
     calls_between w (snd (run w)) calls /\
     calls_between (snd (run w)) (snd (run (snd (run w)))) calls) /\
  files (snd (run (snd (run w)))) = files (snd (run w)).
Proof.
  intros Hrun. destruct (Hrun (unwritable w)) as (res & calls & ws & Hw).
  destruct (Hw w eq_refl) as (Hres & Hcalls & Hfiles & Hunw).
  destruct (Hw (snd (run w)) Hunw) as (Hres' & Hcalls' & Hfiles' & _).
  split; [congruence|]. split; [by exists calls|].
  by rewrite Hfiles', Hfiles, apply_writes_twice.
Qed.

(** So does running it from any other contents of the shared buffer. *)
Lemma fixed_by_unwritable_buffer run w b :
  fixed_by_unwritable run ->
  fst (run (set_buffer b w)) = fst (run w) /\
  files (snd (run (set_buffer b w))) = files (snd (run w)).
Proof.
  intros Hrun. destruct (Hrun (unwritable w)) as (res & calls & ws & Hw).
  destruct (Hw w eq_refl) as (Hres & _ & Hfiles & _).
  destruct (Hw (set_buffer b w) eq_refl) as (Hres' & _ & Hfiles' & _).
  split; [congruence|]. by rewrite Hfiles', Hfiles.
Qed.

(** No panic of a template leaves the assemblers. *)
Lemma assemblers_return e w :
  (exists res, fst (executeTemplates e w) = Return res) /\
  (exists res, fst (executeSingletonTemplates e w) = Return res).
Proof.
  split.
  - destruct (IsJoinTable (Table (data e))) eqn:Hjoin.
    + unfold executeTemplates. rewrite Hjoin. by eexists.
    + rewrite executeTemplates_eq by done. simpl.
      destruct (first_failure _ _ _); by eexists.
  - unfold executeSingletonTemplates.
    destruct (IsJoinTable (Table (data e))); [by eexists|].
    revert w. induction (Templates (templates e)) as [|tplName more IH]; intros w.
    + by eexists.
    + rewrite executeSingletonTemplates_loop_cons. simpl.
      destruct (executeTemplate_result _ _ _); [by eexists|].
      destruct (writeFile _ _ _) as [[err|] w2]; [by eexists|apply IH].
Qed.

(** C9: assembling the same file twice in succession returns the same
    result, hands the same bytes for the same paths to the file writer and
    leaves the same files, for a per-entity call and for a singleton call;
    the contents the shared buffer had before a call make no difference,
    since each file starts from a reset buffer. *)
Theorem regeneration_is_deterministic e w :
  (fst (executeTemplates e (snd (executeTemplates e w)))
     = fst (executeTemplates e w) /\
   (exists calls,
      calls_between w (snd (executeTemplates e w)) calls /\
      calls_between (snd (executeTemplates e w))
        (snd (executeTemplates e (snd (executeTemplates e w)))) calls) /\
   files (snd (executeTemplates e (snd (executeTemplates e w))))
     = files (snd (executeTemplates e w))) /\
  (fst (executeSingletonTemplates e (snd (executeSingletonTemplates e w)))
     = fst (executeSingletonTemplates e w) /\
   (exists calls,
      calls_between w (snd (executeSingletonTemplates e w)) calls /\
      calls_between (snd (executeSingletonTemplates e w))
        (snd (executeSingletonTemplates e (snd (executeSingletonTemplates e w))))
        calls) /\
   files (snd (executeSingletonTemplates e (snd (executeSingletonTemplates e w))))
     = files (snd (executeSingletonTemplates e w))) /\
  (forall stale,
     fst (executeTemplates e (set_buffer stale w)) = fst (executeTemplates e w) /\
     files (snd (executeTemplates e (set_buffer stale w)))
       = files (snd (executeTemplates e w)) /\
     fst (executeSingletonTemplates e (set_buffer stale w))
       = fst (executeSingletonTemplates e w) /\
     files (snd (executeSingletonTemplates e (set_buffer stale w)))
       = files (snd (executeSingletonTemplates e w))).
Proof.
  split; [|split].
  - apply fixed_by_unwritable_twice, executeTemplates_fixed.
  - apply fixed_by_unwritable_twice, executeSingletonTemplates_fixed.
  - intros stale.
    destruct (fixed_by_unwritable_buffer _ w stale (executeTemplates_fixed e)).
    destruct (fixed_by_unwritable_buffer _ w stale (executeSingletonTemplates_fixed e)).
    done.
Qed.

End Regeneration.

(** ** The diagnostic of a formatting failure *)

(** *** The line number in the formatter's message *)

Lemma span_digits_app ds c rest :
  all_digits ds = true -> is_digit c = false ->
  span_digits (ds +:+ String c rest) = (ds, String c rest).
Proof.
  intros Hds Hc. induction ds as [|d ds IH]; simpl.
  - by rewrite Hc.
  - simpl in Hds. apply andb_prop in Hds as [Hd Hds].
    by rewrite Hd, IH.
Qed.

Lemma rgxSyntaxError_line_column num col rest :
  num <> "" -> all_digits num = true ->
  col <> "" -> all_digits col = true ->
  rgxSyntaxError_FindStringSubmatch (num +:+ ":" +:+ col +:+ ": " +:+ rest)
  = Some num.
Proof.
  intros Hnum Hdn Hcol Hdc.
  assert (rgxSyntaxError_match_here (num +:+ ":" +:+ col +:+ ": " +:+ rest)
          = Some num) as Hhere.
  { unfold rgxSyntaxError_match_here.
    change (":" +:+ col +:+ ": " +:+ rest)
      with (String ":" (col +:+ String ":" (String " " rest))).
    rewrite span_digits_app by done.
    rewrite span_digits_app by done.
    destruct num; [done|]. by destruct col. }
  revert Hhere. generalize (num +:+ ":" +:+ col +:+ ": " +:+ rest).
  intros [|c s] Hhere; [done|].
  cbn [rgxSyntaxError_FindStringSubmatch]. by rewrite Hhere.
Qed.

(** *** The scanner on lines that fit its buffer *)

Lemma rev_app_app s t : String.rev_app s t = String.rev_app s "" +:+ t.
Proof.
  revert t. induction s as [|c s IH]; intros t; [done|]. simpl.
  rewrite (IH (String c t)), (IH (String c "")). by rewrite app_assoc.
Qed.

Lemma rev_cons c s : String.rev (String c s) = String.rev s +:+ String c "".
Proof. unfold String.rev. simpl. apply rev_app_app. Qed.

Lemma length_rev s : String.length (String.rev s) = String.length s.
Proof.
  induction s as [|c s IH]; [done|].
  rewrite rev_cons, length_app, IH. simpl. lia.
Qed.

Lemma dropCR_snoc s c :
  dropCR (s +:+ String c "") = if Ascii.eqb c CR then s else s +:+ String c "".
Proof.
  induction s as [|d s IH]; [done|].
  rewrite app_cons. simpl. rewrite IH.
  destruct s; simpl; by destruct (Ascii.eqb c CR).
Qed.

Lemma dropCR_rev_spec rline :
  String.rev (dropCR_rev rline) = dropCR (String.rev rline).
Proof.
  destruct rline as [|c r]; [done|].
  rewrite rev_cons, dropCR_snoc. simpl.
  destruct (Ascii.eqb c CR); [done|]. by rewrite rev_cons.
Qed.

Lemma join_first_empty ls : join_first "" ls = ls.
Proof. by destruct ls. Qed.

Lemma join_first_cons pre c rest :
  Ascii.eqb c LF = false ->
  join_first pre (split_LF (String c rest))
  = join_first (pre +:+ String c "") (split_LF rest).
Proof.
  intros Hc. simpl. rewrite Hc.
  destruct (split_LF rest) as [|l ls]; simpl.
  - by destruct pre.
  - by rewrite app_assoc.
Qed.

Lemma fits_rev_length rline n :
  n = Z.of_nat (String.length rline) -> n < MaxScanTokenSize ->
  fits (String.rev rline) = true.
Proof. intros -> Hn. unfold fits. rewrite length_rev. lia. Qed.

(** The scanner delivers the lines up to the first that does not fit. *)
Lemma Scanner_scan_eq input : forall rline n,
  n = Z.of_nat (String.length rline) -> n < MaxScanTokenSize ->
  fst (Scanner_scan rline n input)
  = map dropCR (take_fitting (join_first (String.rev rline) (split_LF input))).
Proof.
  induction input as [|c rest IH]; intros rline n Hn Hmax.
  - simpl. destruct rline as [|d r]; [done|].
    rewrite dropCR_rev_spec.
    pose proof (fits_rev_length _ _ Hn Hmax) as Hfit.
    destruct (String.rev (String d r)) eqn:Hrev.
    + apply (f_equal String.length) in Hrev. by rewrite length_rev in Hrev.
    + simpl. by rewrite Hfit.
  - cbn [Scanner_scan]. destruct (Ascii.eqb c LF) eqn:Hc.
    + specialize (IH "" 0 eq_refl eq_refl).
      destruct (Scanner_scan "" 0 rest) as [toks unread]. simpl in *.
      rewrite Hc. simpl.
      rewrite app_nil_r, (fits_rev_length _ _ Hn Hmax). simpl.
      by rewrite dropCR_rev_spec, IH, join_first_empty.
    + rewrite join_first_cons by done. rewrite <- rev_cons.
      destruct (MaxScanTokenSize <=? n + 1) eqn:Hfull.
      * simpl.
        assert (fits (String.rev (String c rline)) = false) as Hlong.
        { unfold fits. rewrite length_rev.
          change (String.length (String c rline)) with (S (String.length rline)).
          apply Z.ltb_ge. apply Z.leb_le in Hfull. lia. }
        destruct (split_LF rest) as [|l ls]; simpl.
        -- destruct (String.rev (String c rline)) eqn:Hrev; [done|].
           simpl. by rewrite Hlong.
        -- assert (fits (String.rev (String c rline) +:+ l) = false) as ->; [|done].
           unfold fits in *. rewrite length_app.
           apply Z.ltb_ge. apply Z.ltb_ge in Hlong. lia.
      * apply IH; [simpl; lia | lia].
Qed.




(** *** The excerpt *)

Lemma formatBuffer_loop_eq lineNum tokens : forall line errBuf,
  formatBuffer_loop lineNum line tokens errBuf
  = errBuf +:+
    concat_strings
      (map (excerpt_line lineNum)
         (List.filter (in_window lineNum) (number_from line tokens))).
Proof.
  induction tokens as [|tok more IH]; intros line errBuf.
  - simpl. by rewrite app_nil_r.
  - cbn [formatBuffer_loop number_from List.filter]. cbv zeta.
    unfold in_window at 1. cbn [fst].
    destruct (Z.abs (line - lineNum) <=? 5) eqn:Hwin.
    + assert ((line - lineNum <? -5) || (5 <? line - lineNum) = false) as ->
        by lia.
      rewrite IH. cbn [map concat_strings]. unfold excerpt_line at 2.
      cbn [fst snd].
      destruct (line =? lineNum); by rewrite !app_assoc.
    + assert ((line - lineNum <? -5) || (5 <? line - lineNum) = true) as ->
        by lia.
      apply IH.
Qed.



Section Diagnostic.
Context `{Collaborators}.


End Diagnostic.



(** *** What the expression for syntax errors matches *)

Lemma span_digits_spec s :
  s = fst (span_digits s) +:+ snd (span_digits s) /\
  all_digits (fst (span_digits s)) = true.
Proof.
  induction s as [|c s [IHs IHd]]; [done|]. simpl.
  destruct (is_digit c) eqn:Hc; [|done].
  destruct (span_digits s) as [ds rest]. simpl in *.
  split; [by rewrite app_cons, <- IHs | by rewrite Hc, IHd].
Qed.

Lemma rgxSyntaxError_match_here_sound s g :
  rgxSyntaxError_match_here s = Some g ->
  exists col post,
    s = g +:+ ":" +:+ col +:+ ": " +:+ post /\
    g <> "" /\ all_digits g = true /\ col <> "" /\ all_digits col = true.
Proof.
  unfold rgxSyntaxError_match_here.
  destruct (span_digits_spec s) as [Hs Hd].
  destruct (span_digits s) as [[|c ds] [|k s1]]; try done. simpl in *.
  destruct (Ascii.ascii_dec k ":") as [->|Hk];
    [|by destruct k as [[] [] [] [] [] [] [] []]].
  destruct (span_digits_spec s1) as [Hs1 Hd1].
  destruct (span_digits s1) as [[|c' col] [|k1 [|k2 post]]]; try done;
    try (by destruct k1 as [[] [] [] [] [] [] [] []]).
  simpl in *.
  destruct (Ascii.ascii_dec k1 ":") as [->|Hk1];
    [|by destruct k1 as [[] [] [] [] [] [] [] []]].
  destruct (Ascii.ascii_dec k2 " ") as [->|Hk2];
    [|by destruct k2 as [[] [] [] [] [] [] [] []]].
  intros [= <-]. exists (String c' col), post.
  split; [|done]. rewrite Hs. do 2 f_equal. by rewrite Hs1.
Qed.

(** The expression finds no match exactly in the messages that hold no
    [line:column: ]. *)
Lemma rgxSyntaxError_no_match s :
  rgxSyntaxError_FindStringSubmatch s = None <-> ~ has_line_column s.
Proof.
  split.
  - intros Hnone (pre & num & col & post & -> & Hnum & Hdn & Hcol & Hdc).
    induction pre as [|c pre IH].
    + by rewrite app_nil_l, rgxSyntaxError_line_column in Hnone.
    + rewrite app_cons in Hnone.
      cbn [rgxSyntaxError_FindStringSubmatch] in Hnone.
      destruct (rgxSyntaxError_match_here _) in Hnone; [done|]. by apply IH.
  - intros Hno. destruct (rgxSyntaxError_FindStringSubmatch s) as [g|] eqn:Hg; [|done].
    exfalso. apply Hno. clear Hno.
    induction s as [|c s IH].
    + discriminate Hg.
    + cbn [rgxSyntaxError_FindStringSubmatch] in Hg.
      destruct (rgxSyntaxError_match_here (String c s)) as [g'|] eqn:Hhere.
      * apply rgxSyntaxError_match_here_sound in Hhere as (col & post & ? & ?).
        by exists "", g', col, post.
      * destruct (IH Hg) as (pre & num & col & post & -> & ?).
        by exists (String c pre), num, col, post.
Qed.

(** * Further properties of output.go *)

(** ** Extension and numbered prefix of a template name *)

Lemma rev_app_distr s t : String.rev (s +:+ t) = String.rev t +:+ String.rev s.
Proof.
  induction s as [|c s IH].
  - by rewrite app_nil_l, app_nil_r.
  - by rewrite app_cons, !rev_cons, IH, app_assoc.
Qed.

Lemma rev_involutive s : String.rev (String.rev s) = s.
Proof.
  induction s as [|c s IH]; [done|].
  by rewrite rev_cons, rev_app_distr, IH.
Qed.

Lemma take_prefix_app s t : take_prefix (String.length s) (s +:+ t) = s.
Proof. induction s as [|c s IH]; [by destruct t|]. simpl. by rewrite IH. Qed.

Lemma free_of_app c s t : free_of c (s +:+ t) = free_of c s && free_of c t.
Proof.
  induction s as [|d s IH]; [done|]. simpl. rewrite IH.
  by destruct (Ascii.eqb d c).
Qed.

Lemma free_of_rev c s : free_of c (String.rev s) = free_of c s.
Proof.
  induction s as [|d s IH]; [done|].
  rewrite rev_cons, free_of_app, IH. simpl.
  destruct (Ascii.eqb d c), (free_of c s); done.
Qed.

(** What the loop of Ext returns is empty or closes the path. *)
Lemma Ext_loop_suffix rpath : forall seen,
  Ext_loop rpath seen = "" \/
  exists stem, String.rev rpath +:+ seen = stem +:+ Ext_loop rpath seen.
Proof.
  induction rpath as [|c more IH]; intros seen; [by left|]. simpl.
  destruct (IsPathSeparator c); [by left|].
  destruct (Ascii.eqb c "."); [right|].
  - exists (String.rev more). by rewrite rev_cons, app_assoc.
  - destruct (IH (String c seen)) as [->|[stem Hstem]]; [by left|right].
    exists stem. by rewrite rev_cons, app_assoc.
Qed.

Lemma Ext_loop_shape rpath : forall seen,
  Ext_loop rpath seen = "" \/
  exists a, Ext_loop rpath seen = String "." (a +:+ seen) /\
            free_of "." a = true /\ free_of "/" a = true.
Proof.
  induction rpath as [|c more IH]; intros seen; [by left|]. simpl.
  unfold IsPathSeparator.
  destruct (Ascii.eqb c "/") eqn:Hsep; [by left|].
  destruct (Ascii.eqb c ".") eqn:Hdot; [right|].
  - apply Ascii.eqb_eq in Hdot as ->. by exists "".
  - destruct (IH (String c seen)) as [->|(a & -> & Ha1 & Ha2)]; [by left|right].
    exists (a +:+ String c ""). rewrite app_assoc. split; [done|].
    rewrite !free_of_app. simpl. by rewrite Ha1, Ha2, Hsep, Hdot.
Qed.

Lemma Ext_stem path : exists stem, path = stem +:+ Ext path.
Proof.
  unfold Ext. destruct (Ext_loop_suffix (String.rev path) "") as [->|[stem Hstem]].
  - exists path. by rewrite app_nil_r.
  - exists stem. by rewrite rev_involutive, app_nil_r in Hstem.
Qed.

(** X1: the extension filepath.Ext finds closes the name, so the slice
    [fName[:len(fName)-len(ext)]] is within bounds and, with the extension,
    gives the name back; the extension is empty or a dot followed by bytes
    that are neither dots nor separators. *)
Theorem Ext_is_final_suffix path :
  (String.length (Ext path) <= String.length path)%nat /\
  take_prefix (String.length path - String.length (Ext path)) path +:+ Ext path
    = path /\
  (Ext path = "" \/
   exists a, Ext path = String "." a /\
             free_of "." a = true /\ free_of "/" a = true).
Proof.
  destruct (Ext_stem path) as [stem Hstem].
  assert (String.length path
          = (String.length stem + String.length (Ext path))%nat) as Hlen
    by (by rewrite Hstem at 1; rewrite length_app).
  split; [lia|]. split.
  - replace (String.length path - String.length (Ext path))%nat
      with (String.length stem) by lia.
    rewrite Hstem at 1. by rewrite take_prefix_app.
  - unfold Ext. destruct (Ext_loop_shape (String.rev path) "")
      as [->|(a & -> & Ha)]; [by left|right].
    exists a. by rewrite app_nil_r.
Qed.

Lemma ReplaceAllString_decomposition s :
  exists pre,
    s = pre +:+ rgxRemoveNumberedPrefix_ReplaceAllString_empty s /\
    (pre = "" \/
     exists ds, ds <> "" /\ all_digits ds = true /\ pre = ds +:+ "_").
Proof.
  unfold rgxRemoveNumberedPrefix_ReplaceAllString_empty.
  destruct (span_digits_spec s) as [Hs Hd].
  destruct (span_digits s) as [[|d ds] [|c rest]]; simpl in *;
    try (exists ""; split; [done|by left]).
  destruct (Ascii.ascii_dec c "_") as [->|Hc].
  - exists (String d ds +:+ "_"). split.
    + by rewrite app_assoc.
    + right. by exists (String d ds).
  - exists "". split; [|by left].
    by destruct c as [[] [] [] [] [] [] [] []].
Qed.

(** X2: the derived name of a singleton template is the template name
    with its extension cut off the end and at most one run of digits with
    an underscore cut off the start; nothing else is dropped or changed. *)
Theorem singletonFName_decomposition tplName :
  exists pre,
    tplName = pre +:+ singletonFName tplName +:+ Ext tplName /\
    (pre = "" \/
     exists ds, ds <> "" /\ all_digits ds = true /\ pre = ds +:+ "_").
Proof.
  unfold singletonFName.
  destruct (Ext_stem tplName) as [stem Hstem].
  assert (take_prefix (String.length tplName - String.length (Ext tplName)) tplName
          = stem) as ->.
  { rewrite Hstem at 1 3. rewrite length_app.
    replace (String.length stem + String.length (Ext tplName)
             - String.length (Ext tplName))%nat
      with (String.length stem) by lia.
    apply take_prefix_app. }
  destruct (ReplaceAllString_decomposition stem) as (pre & Hpre & Hshape).
  exists pre. split; [|done].
  by rewrite <- app_assoc, <- Hpre.
Qed.

Lemma Ext_loop_dot a : forall b seen,
  free_of "." a = true -> free_of "/" a = true ->
  Ext_loop (a +:+ String "." b) seen = String "." (String.rev a +:+ seen).
Proof.
  induction a as [|c a IH]; intros b seen Hdot Hsep; [done|].
  simpl in *. apply andb_prop in Hdot as [Hc1 Hdot].
  apply andb_prop in Hsep as [Hc2 Hsep].
  unfold IsPathSeparator.
  destruct (Ascii.eqb c "/"); [done|]. destruct (Ascii.eqb c "."); [done|].
  rewrite IH by done. by rewrite rev_cons, app_assoc.
Qed.

Lemma Ext_dot stem ext :
  free_of "." ext = true -> free_of "/" ext = true ->
  Ext (stem +:+ String "." ext) = String "." ext.
Proof.
  intros Hdot Hsep. unfold Ext.
  change (String "." ext) with (String "." "" +:+ ext) at 1.
  rewrite !rev_app_distr, app_assoc.
  change (String.rev (String "." "") +:+ String.rev stem)
    with (String "." (String.rev stem)).
  rewrite Ext_loop_dot by (by rewrite free_of_rev).
  by rewrite rev_involutive, app_nil_r.
Qed.

(** X3: a template name made of a run of digits, an underscore, a base
    name, a dot and an extension without dot or separator derives the base
    name, whatever the base name holds. *)
Theorem singletonFName_numbered digits base ext :
  digits <> "" -> all_digits digits = true ->
  free_of "." ext = true -> free_of "/" ext = true ->
  singletonFName (digits +:+ "_" +:+ base +:+ String "." ext) = base.
Proof.
  intros Hne Hdig Hdot Hsep. unfold singletonFName.
  replace (digits +:+ "_" +:+ base +:+ String "." ext)
    with ((digits +:+ "_" +:+ base) +:+ String "." ext)
    by (by rewrite !app_assoc).
  rewrite Ext_dot by done.
  rewrite length_app.
  replace (String.length (digits +:+ "_" +:+ base)
           + String.length (String "." ext) - String.length (String "." ext))%nat
    with (String.length (digits +:+ "_" +:+ base)) by lia.
  rewrite take_prefix_app.
  unfold rgxRemoveNumberedPrefix_ReplaceAllString_empty.
  change ("_" +:+ base) with (String "_" base).
  rewrite span_digits_app by done.
  by destruct digits.
Qed.

Lemma singletonFName_numbered_witness :
  "99" <> "" /\ all_digits "99" = true /\
  free_of "." "tmpl" = true /\ free_of "/" "tmpl" = true /\
  singletonFName ("99" +:+ "_" +:+ "foo_bar" +:+ String "." "tmpl") = "foo_bar".
Proof.
  split; [done|]. split; [reflexivity|]. split; [reflexivity|].
  split; [reflexivity|].
  apply (singletonFName_numbered "99" "foo_bar" "tmpl"); done.
Defined.

(** ** The expression for syntax errors *)

Lemma rgxSyntaxError_FindStringSubmatch_sound s : forall g,
  rgxSyntaxError_FindStringSubmatch s = Some g ->
  exists pre col post,
    s = pre +:+ g +:+ ":" +:+ col +:+ ": " +:+ post /\
    g <> "" /\ all_digits g = true /\ col <> "" /\ all_digits col = true.
Proof.
  induction s as [|c s IH]; intros g Hg; [discriminate Hg|].
  cbn [rgxSyntaxError_FindStringSubmatch] in Hg.
  destruct (rgxSyntaxError_match_here (String c s)) as [g'|] eqn:Hhere.
  - injection Hg as ->.
    apply rgxSyntaxError_match_here_sound in Hhere as (col & post & ? & ?).
    by exists "", col, post.
  - destruct (IH g Hg) as (pre & col & post & -> & ?).
    by exists (String c pre), col, post.
Qed.

(** X4: the expression finds nothing exactly in the messages that hold no
    [digits:digits: ]; what it finds as group 1 is a non-empty run of
    digits followed in the message by a colon, a run of digits, a colon
    and a space. *)
Theorem rgxSyntaxError_matches s :
  (rgxSyntaxError_FindStringSubmatch s = None <-> ~ has_line_column s) /\
  (forall g, rgxSyntaxError_FindStringSubmatch s = Some g ->
     g <> "" /\ all_digits g = true /\
     exists pre col post,
       s = pre +:+ g +:+ ":" +:+ col +:+ ": " +:+ post /\
       col <> "" /\ all_digits col = true).
Proof.
  split; [apply rgxSyntaxError_no_match|].
  intros g Hg.
  destruct (rgxSyntaxError_FindStringSubmatch_sound s g Hg)
    as (pre & col & post & Hs & Hne & Hd & Hcol).
  split; [done|]. split; [done|]. by exists pre, col, post.
Qed.

(** X5: the line number is found behind any text without digits: for a
    message [text ++ line:column: rest] group 1 is [line]. *)
Theorem rgxSyntaxError_after_text text num col rest :
  digit_free text = true ->
  num <> "" -> all_digits num = true ->
  col <> "" -> all_digits col = true ->
  rgxSyntaxError_FindStringSubmatch (text +:+ num +:+ ":" +:+ col +:+ ": " +:+ rest)
  = Some num.
Proof.
  intros Htext Hnum Hdn Hcol Hdc. induction text as [|c text IH].
  - rewrite app_nil_l. by apply rgxSyntaxError_line_column.
  - simpl in Htext. apply andb_prop in Htext as [Hc Htext].
    rewrite app_cons. cbn [rgxSyntaxError_FindStringSubmatch].
    unfold rgxSyntaxError_match_here at 1. cbn [span_digits].
    destruct (is_digit c); [done|]. by apply IH.
Qed.

Lemma rgxSyntaxError_after_text_witness :
  digit_free "models/users.go:" = true /\
  "42" <> "" /\ all_digits "42" = true /\ "7" <> "" /\ all_digits "7" = true /\
  rgxSyntaxError_FindStringSubmatch
    ("models/users.go:" +:+ "42" +:+ ":" +:+ "7" +:+ ": " +:+ "expected ';'")
  = Some "42".
Proof.
  split; [reflexivity|]. split; [done|]. split; [reflexivity|].
  split; [done|]. split; [reflexivity|].
  apply (rgxSyntaxError_after_text "models/users.go:" "42" "7" "expected ';'");
    done.
Defined.

(** ** The line number as an int *)

Lemma decimal_value_ge s : forall acc v,
  0 <= acc -> decimal_value acc s = Some v -> acc <= v.
Proof.
  induction s as [|c s IH]; intros acc v Hacc; simpl.
  - intros [= <-]. lia.
  - destruct (Ascii.is_nat c) as [d|]; [|done].
    intros Hv. apply IH in Hv; lia.
Qed.

Lemma Atoi_digits s :
  all_digits s = true ->
  Atoi s = match Atoi_unsigned s with
           | Some v => Z.min MaxInt v
           | None => 0
           end.
Proof.
  destruct s as [|c s]; [done|]. intros Hd. simpl in Hd.
  apply andb_prop in Hd as [Hc _].
  destruct c as [[] [] [] [] [] [] [] []]; try discriminate Hc; reflexivity.
Qed.

(** X6: the line number formatBuffer takes from a run of digits lies
    between 0 and the largest int, so for every line counter from 1 up to
    the largest int the difference [line - lineNum] is an int: the
    subtraction of the loop cannot overflow. *)
Theorem lineNum_in_range num line :
  all_digits num = true ->
  1 <= line <= MaxInt ->
  0 <= Atoi num <= MaxInt /\
  MinInt <= line - Atoi num <= MaxInt.
Proof.
  intros Hd Hline.
  assert (0 <= Atoi num <= MaxInt) as Hrange.
  { rewrite Atoi_digits by done. unfold Atoi_unsigned.
    destruct num as [|c s]; [by vm_compute|].
    destruct (decimal_value 0 (String c s)) as [v|] eqn:Hv; [|by vm_compute].
    apply decimal_value_ge in Hv; [|done].
    assert (0 <= MaxInt) by (by vm_compute). lia. }
  split; [done|]. unfold MinInt, MaxInt in *. lia.
Qed.

Lemma lineNum_in_range_witness :
  all_digits "99999999999999999999" = true /\
  1 <= 1 <= MaxInt /\
  0 <= Atoi "99999999999999999999" <= MaxInt /\
  MinInt <= 1 - Atoi "99999999999999999999" <= MaxInt.
Proof.
  split; [reflexivity|]. split; [by vm_compute|].
  apply (lineNum_in_range "99999999999999999999" 1); [reflexivity|by vm_compute].
Defined.

(** ** The excerpt, whatever the buffer *)





Section Scanned.
Context `{Collaborators}.

(** X8: when the formatter's message starts with [line:column: ], the
    excerpt is taken from the lines that come before the first line of
    64 KiB or more: the window around the failing line, over those lines
    only. *)
Theorem formatBuffer_excerpt_scanned w err num col rest :
  format_Source (Bytes w) = inr err ->
  Error err = num +:+ ":" +:+ col +:+ ": " +:+ rest ->
  num <> "" -> all_digits num = true ->
  col <> "" -> all_digits col = true ->
  fst (formatBuffer w)
  = inr (Wrap err
           ("failed to format template" +:+ nl +:+ nl +:+
            concat_strings
              (map (excerpt_line (Atoi num))
                 (window (Atoi num)
                    (map dropCR (take_fitting (split_LF (Bytes w)))))) +:+
            nl)).
Proof.
  intros Hf Hmsg Hnum Hdn Hcol Hdc.
  unfold formatBuffer. rewrite Hf, Hmsg.
  rewrite rgxSyntaxError_line_column by done.
  unfold Bytes, Scanner_lines in *.
  pose proof (Scanner_scan_eq (templateByteBuffer w) "" 0 eq_refl eq_refl) as Htok.
  rewrite join_first_empty in Htok.
  destruct (Scanner_scan "" 0 (templateByteBuffer w)) as [tokens unread].
  simpl in *. by rewrite formatBuffer_loop_eq, Htok.
Qed.

End Scanned.

Lemma formatBuffer_excerpt_scanned_witness :
  let C := sample_collaborators (format_fails "2:1: expected 'package', found x") in
  let w := set_buffer ("package models" +:+ nl +:+ "x" +:+ nl +:+
                       N.iter 65536 (String "a") "" +:+ nl +:+ "y" +:+ nl)
             sample_world in
  let err := External "2:1: expected 'package', found x" in
  format_Source (Bytes w) = inr err /\
  Error err = "2" +:+ ":" +:+ "1" +:+ ": " +:+ "expected 'package', found x" /\
  fst (formatBuffer w)
  = inr (Wrap err
           ("failed to format template" +:+ nl +:+ nl +:+
            concat_strings [ "   1 package models" +:+ nl;
                             ">>>> x" +:+ nl ] +:+
            nl)).
Proof.
  intros C w err. split; [reflexivity|]. split; [reflexivity|].
  rewrite (formatBuffer_excerpt_scanned w err "2" "1" "expected 'package', found x")
    by done.
  vm_compute. reflexivity.
Defined.

(** ** Width of the line numbers *)

(** X9: for line numbers up to 999 the number and its space take the 5
    bytes the marker [>>>> ] takes, so the lines of an excerpt are aligned;
    from 1000 to 9999 they take 6. *)
Theorem Sprintf_space_4d_width n :
  0 <= n <= 9999 ->
  String.length (Sprintf_space_4d n +:+ " ")
  = if n <? 1000 then String.length ">>>> " else S (String.length ">>>> ").
Proof.
  intros Hn.
  assert (forallb (fun n =>
            Nat.eqb (String.length (Sprintf_space_4d n +:+ " "))
              (if n <? 1000 then String.length ">>>> "
               else S (String.length ">>>> ")))
            (seqZ 0 10000) = true) as Hall by (vm_compute; reflexivity).
  rewrite forallb_forall in Hall.
  apply Nat.eqb_eq, Hall, list_elem_of_In, elem_of_seqZ. lia.
Qed.

Lemma Sprintf_space_4d_width_witness :
  0 <= 1000 <= 9999 /\
  String.length (Sprintf_space_4d 1000 +:+ " ") = S (String.length ">>>> ").
Proof.
  split; [by vm_compute|].
  apply (Sprintf_space_4d_width 1000). by vm_compute.
Defined.

(** ** What formatBuffer does to the world *)

Lemma Scanner_scan_unread input : forall rline n,
  exists consumed, input = consumed +:+ snd (Scanner_scan rline n input).
Proof.
  induction input as [|c rest IH]; intros rline n.
  - exists "". simpl. by destruct rline.
  - cbn [Scanner_scan]. destruct (Ascii.eqb c LF).
    + destruct (IH "" 0) as [consumed Hc].
      destruct (Scanner_scan "" 0 rest) as [toks unread]. simpl in *.
      exists (String c consumed). by rewrite app_cons, <- Hc.
    + destruct (MaxScanTokenSize <=? n + 1).
      * by exists (String c "").
      * destruct (IH (String c rline) (n + 1)) as [consumed Hc].
        exists (String c consumed). by rewrite app_cons, <- Hc.
Qed.

Lemma Scanner_scan_drained input : forall rline n,
  n = Z.of_nat (String.length rline) -> n < MaxScanTokenSize ->
  forallb fits (join_first (String.rev rline) (split_LF input)) = true ->
  snd (Scanner_scan rline n input) = "".
Proof.
  induction input as [|c rest IH]; intros rline n Hn Hmax Hfit.
  - simpl. by destruct rline.
  - cbn [Scanner_scan]. destruct (Ascii.eqb c LF) eqn:Hc.
    + simpl in Hfit. rewrite Hc in Hfit. simpl in Hfit.
      apply andb_prop in Hfit as [_ Hfit].
      specialize (IH "" 0 eq_refl eq_refl).
      rewrite join_first_empty in IH. specialize (IH Hfit).
      by destruct (Scanner_scan "" 0 rest).
    + rewrite join_first_cons in Hfit by done. rewrite <- rev_cons in Hfit.
      assert (n + 1 < MaxScanTokenSize) as Hlt.
      { assert (fits (String.rev (String c rline)) = true) as Hfirst.
        { destruct (split_LF rest) as [|l ls]; simpl in Hfit.
          - destruct (String.rev (String c rline)) eqn:Hrev.
            + apply (f_equal String.length) in Hrev.
              by rewrite length_rev in Hrev.
            + simpl in Hfit. by apply andb_prop in Hfit as [? _].
          - apply andb_prop in Hfit as [Hfit _]. unfold fits in *.
            rewrite length_app in Hfit.
            apply Z.ltb_lt. apply Z.ltb_lt in Hfit. lia. }
        unfold fits in Hfirst. rewrite length_rev in Hfirst.
        change (String.length (String c rline)) with (S (String.length rline))
          in Hfirst.
        apply Z.ltb_lt in Hfirst. lia. }
      destruct (MaxScanTokenSize <=? n + 1) eqn:Hfull;
        [apply Z.leb_le in Hfull; lia|].
      apply IH; [simpl; lia | lia | done].
Qed.

Section Effects.
Context `{Collaborators}.

(** X10: formatBuffer leaves the files and both logs alone and never adds
    to the shared buffer: what is left in the buffer closes what was in
    it; when the formatter accepts the buffer the world is unchanged. *)
Theorem formatBuffer_effects w :
  files (snd (formatBuffer w)) = files w /\
  unwritable (snd (formatBuffer w)) = unwritable w /\
  executed (snd (formatBuffer w)) = executed w /\
  writeCalls (snd (formatBuffer w)) = writeCalls w /\
  (exists consumed,
     templateByteBuffer w
     = consumed +:+ templateByteBuffer (snd (formatBuffer w))) /\
  (forall out, format_Source (Bytes w) = inl out ->
     formatBuffer w = (inl out, w)).
Proof.
  destruct (formatBuffer_frame w) as (Hf & Hu & He & Hc).
  repeat (split; [done|]). split.
  - unfold formatBuffer.
    destruct (format_Source (Bytes w)) as [out|err]; [by exists ""|].
    destruct (rgxSyntaxError_FindStringSubmatch (Error err)); [|by exists ""].
    unfold Scanner_lines.
    destruct (Scanner_scan_unread (templateByteBuffer w) "" 0) as [consumed Hc'].
    destruct (Scanner_scan "" 0 (templateByteBuffer w)) as [toks unread].
    by exists consumed.
  - intros out Hout. unfold formatBuffer. by rewrite Hout.
Qed.

(** X11: when the formatter rejects the buffer with a line number and every
    line of the buffer fits the scanner, building the excerpt reads the
    shared buffer to its end: the buffer is empty afterwards. *)
Theorem formatBuffer_drains_buffer w err g :
  format_Source (Bytes w) = inr err ->
  rgxSyntaxError_FindStringSubmatch (Error err) = Some g ->
  forallb fits (split_LF (Bytes w)) = true ->
  templateByteBuffer (snd (formatBuffer w)) = "".
Proof.
  intros Hf Hg Hfit. unfold formatBuffer. rewrite Hf, Hg.
  unfold Bytes, Scanner_lines in *.
  pose proof (Scanner_scan_drained (templateByteBuffer w) "" 0 eq_refl eq_refl)
    as Hdrained.
  rewrite join_first_empty in Hdrained. specialize (Hdrained Hfit).
  by destruct (Scanner_scan "" 0 (templateByteBuffer w)).
Qed.

End Effects.

Lemma formatBuffer_drains_buffer_witness :
  let C := sample_collaborators (format_fails "42:1: expected declaration, found x") in
  let w := set_buffer fifty_lines sample_world in
  let err := External "42:1: expected declaration, found x" in
  format_Source (Bytes w) = inr err /\
  rgxSyntaxError_FindStringSubmatch (Error err) = Some "42" /\
  forallb fits (split_LF (Bytes w)) = true /\
  templateByteBuffer (snd (formatBuffer w)) = "".
Proof.
  intros C w err. split; [reflexivity|]. split; [reflexivity|].
  split; [reflexivity|].
  apply (formatBuffer_drains_buffer w err "42"); reflexivity.
Defined.

(** ** Per-entity files, end to end *)

Lemma first_failure_app t d pre name post err :
  forallb (fun n => succeeds (t n d)) pre = true ->
  executeTemplate_result t name d = Some err ->
  first_failure t d (pre ++ name :: post) = Some err /\
  ran_names t d (pre ++ name :: post) = pre ++ [name].
Proof.
  intros Hpre Hname. induction pre as [|n pre IH]; simpl.
  - by rewrite Hname.
  - simpl in Hpre. apply andb_prop in Hpre as [Hn Hpre].
    apply executeTemplate_result_succeeds in Hn. rewrite Hn.
    destruct (IH Hpre) as [-> ->]. done.
Qed.

Section EndToEnd.
Context `{Collaborators}.

(** X12: no panic of a template leaves one of the four generate
    functions: each of them returns. *)
Theorem generate_returns st d w :
  (exists res, fst (generateOutput st d w) = Return res) /\
  (exists res, fst (generateTestOutput st d w) = Return res) /\
  (exists res, fst (generateSingletonOutput st d w) = Return res) /\
  (exists res, fst (generateSingletonTestOutput st d w) = Return res).
Proof.
  repeat split;
    first [ apply (proj1 (assemblers_return _ w))
          | apply (proj2 (assemblers_return _ w)) ].
Qed.

(** X13: executeTemplates stops at the first template that fails: it
    returns that template's error, the templates after it are not run, the
    shared buffer keeps the header and what was rendered so far, and the
    file writer is not called. *)
Theorem executeTemplates_stops_at_first_failure e w pre name post err :
  IsJoinTable (Table (data e)) = false ->
  Templates (templates e) = pre ++ name :: post ->
  forallb (fun n => succeeds (Template (templates e) n (data e))) pre = true ->
  executeTemplate_result (Template (templates e)) name (data e) = Some err ->
  executeTemplates e w =
  (Return (Some err),
   {| templateByteBuffer :=
        fileLayout (PkgName (Config (state e)))
          (Set_Format (effective_imports e))
          (rendered_bodies (Template (templates e)) (data e) (pre ++ [name]));
      files := files w;
      unwritable := unwritable w;
      executed := executed w ++ pre ++ [name];
      writeCalls := writeCalls w |}).
Proof.
  intros Hjoin Hnames Hpre Hname.
  rewrite executeTemplates_eq by done. simpl. rewrite Hnames.
  by destruct (first_failure_app _ _ pre name post err Hpre Hname) as [-> ->].
Qed.

(** X14: when every template renders, the formatter accepts the buffer and
    the path can be written, executeTemplates returns nil after running
    the templates once each in list order and calling the file writer
    once; the file of the entity then holds the formatter's output and
    every other file is as before. *)
Theorem executeTemplates_writes_formatted e w byt :
  IsJoinTable (Table (data e)) = false ->
  all_succeed (templates e) (data e) = true ->
  format_Source (assembled e (Templates (templates e))) = inl byt ->
  entity_path e ∉ unwritable w ->
  executeTemplates e w =
  (Return None,
   {| templateByteBuffer := assembled e (Templates (templates e));
      files := <[entity_path e := byt]> (files w);
      unwritable := unwritable w;
      executed := executed w ++ Templates (templates e);
      writeCalls := writeCalls w ++ [(entity_path e, byt)] |}) /\
  files (snd (executeTemplates e w)) !! entity_path e = Some byt /\
  (forall p, p <> entity_path e ->
     files (snd (executeTemplates e w)) !! p = files w !! p).
Proof.
  intros Hjoin Hall Hfmt Hpath.
  assert (executeTemplates e w =
          (Return None,
           {| templateByteBuffer := assembled e (Templates (templates e));
              files := <[entity_path e := byt]> (files w);
              unwritable := unwritable w;
              executed := executed w ++ Templates (templates e);
              writeCalls := writeCalls w ++ [(entity_path e, byt)] |})) as Hrun.
  { rewrite executeTemplates_assembled by done.
    rewrite (writeFile_format_success _ _ _ byt) by done. simpl.
    fold (entity_path e). by rewrite decide_False. }
  rewrite Hrun. simpl. split; [done|]. split.
  - apply lookup_insert_eq.
  - intros p Hp. by rewrite lookup_insert_ne.
Qed.


(** X16: an entity with no template at all still gets a file, holding the
    header alone, while an empty list of singleton templates leaves the
    world untouched. *)
Theorem empty_template_lists e w :
  IsJoinTable (Table (data e)) = false ->
  Templates (templates e) = [] ->
  executeTemplates e w =
    returned
      (writeFile (OutFolder (Config (state e)))
         (Name (Table (data e)) +:+ fileSuffix e)
         (set_buffer
            (fileLayout (PkgName (Config (state e)))
               (Set_Format (effective_imports e)) "") w)) /\
  executeSingletonTemplates e w = (Return None, w).
Proof.
  intros Hjoin Hnames. split.
  - rewrite executeTemplates_eq by done. rewrite Hnames. simpl.
    f_equal. f_equal. apply World_eq; simpl; try done.
    by rewrite (right_id_L [] (++)).
  - unfold executeSingletonTemplates. by rewrite Hjoin, Hnames.
Qed.

End EndToEnd.

Lemma executeTemplates_stops_at_first_failure_witness :
  let C := sample_collaborators format_ok in
  IsJoinTable (Table (data failing_request)) = false /\
  Templates (templates failing_request) = ["a.tpl"] ++ "broken.tpl" :: ["c.tpl"] /\
  executed (snd (executeTemplates failing_request sample_world))
    = ["a.tpl"; "broken.tpl"] /\
  writeCalls (snd (executeTemplates failing_request sample_world)) = [].
Proof.
  intros C. split; [reflexivity|]. split; [reflexivity|].
  rewrite (executeTemplates_stops_at_first_failure failing_request sample_world
             ["a.tpl"] "broken.tpl" ["c.tpl"]
             (Wrap (External "template: broken.tpl:3:5: nil pointer evaluating")
                ("failed to execute template: " +:+ "broken.tpl")));
    done.
Defined.

Lemma executeTemplates_writes_formatted_witness :
  let C := sample_collaborators format_ok in
  IsJoinTable (Table (data sample_request)) = false /\
  all_succeed (templates sample_request) (data sample_request) = true /\
  entity_path sample_request = "out/users.go" /\
  files (snd (executeTemplates sample_request sample_world)) !! "out/users.go"
    = Some (assembled sample_request ["a.tpl"; "b.tpl"]) /\
  files (snd (executeTemplates sample_request sample_world)) !! "out/old.go"
    = Some "package models".
Proof.
  intros C. split; [reflexivity|]. split; [reflexivity|]. split; [reflexivity|].
  destruct (executeTemplates_writes_formatted sample_request sample_world
              (assembled sample_request ["a.tpl"; "b.tpl"]))
    as (_ & Hfile & Hother); [reflexivity..| |].
  - intros Hin.
    change (unwritable sample_world) with ({[ "out/locked.go" ]} : gset string) in Hin.
    apply elem_of_singleton in Hin. discriminate Hin.
  - split; [exact Hfile|]. by rewrite Hother.
Defined.


Lemma empty_template_lists_witness :
  let C := sample_collaborators format_ok in
  IsJoinTable (Table (data empty_request)) = false /\
  Templates (templates empty_request) = [] /\
  files (snd (executeTemplates empty_request sample_world)) !! "out/users.go"
    = Some (fileLayout "models" (Set_Format (effective_imports empty_request)) "") /\
  executeSingletonTemplates empty_request sample_world = (Return None, sample_world).
Proof.
  intros C. split; [reflexivity|]. split; [reflexivity|].
  destruct (empty_template_lists empty_request sample_world) as [Hrun Hsingle];
    [reflexivity..|].
  rewrite Hrun. split; [|exact Hsingle]. vm_compute. reflexivity.
Defined.

(** ** Singleton files, end to end *)

Section SingletonEndToEnd.
Context `{Collaborators}.

(** One round that goes through. *)
Lemma executeSingletonTemplates_loop_ok e tplName more w :
  singleton_ok e (unwritable w) tplName = true ->
  exists w2,
    executeSingletonTemplates_loop e (tplName :: more) w
      = executeSingletonTemplates_loop e more w2 /\
    files w2 = apply_writes (singleton_written e tplName) (files w) /\
    unwritable w2 = unwritable w /\
    executed w2 = executed w ++ [tplName] /\
    writeCalls w2 = writeCalls w ++ singleton_written e tplName.
Proof.
  unfold singleton_ok, singleton_written. intros [Hsucc Hfmt]%andb_prop.
  apply executeTemplate_result_succeeds in Hsucc.
  destruct (format_Source (singleton_assembled e tplName)) as [byt|err] eqn:Hf;
    [|done].
  apply bool_decide_eq_true_1 in Hfmt.
  rewrite executeSingletonTemplates_loop_cons. simpl. rewrite Hsucc.
  rewrite (writeFile_format_success _ _ _ byt) by done. simpl.
  fold (singleton_path e tplName). rewrite decide_False by done.
  by eexists.
Qed.

(** A run of rounds that go through. *)
Lemma executeSingletonTemplates_loop_app e pre : forall rest w,
  forallb (singleton_ok e (unwritable w)) pre = true ->
  exists wmid,
    executeSingletonTemplates_loop e (pre ++ rest) w
      = executeSingletonTemplates_loop e rest wmid /\
    files wmid = apply_writes (concat (map (singleton_written e) pre)) (files w) /\
    unwritable wmid = unwritable w /\
    executed wmid = executed w ++ pre /\
    writeCalls wmid = writeCalls w ++ concat (map (singleton_written e) pre).
Proof.
  induction pre as [|tplName pre IH]; intros rest w Hok.
  - exists w. simpl. by rewrite !(right_id_L [] (++)).
  - simpl in Hok. apply andb_prop in Hok as [Hone Hpre].
    destruct (executeSingletonTemplates_loop_ok e tplName (pre ++ rest) w Hone)
      as (w2 & Hrun & Hfiles & Hunw & Hex & Hcalls).
    rewrite <- Hunw in Hpre.
    destruct (IH rest w2 Hpre) as (wmid & Hrun' & Hfiles' & Hunw' & Hex' & Hcalls').
    exists wmid.
    change ((tplName :: pre) ++ rest) with (tplName :: (pre ++ rest)).
    cbn [map concat].
    rewrite Hrun, Hrun', Hfiles', Hfiles, Hunw', Hunw, Hex', Hex, Hcalls', Hcalls.
    rewrite apply_writes_app, <- !(assoc_L (++)). done.
Qed.

(** X17: when the round of every singleton template goes through,
    executeSingletonTemplates returns nil after running the templates once
    each in list order and handing one formatted file per template to the
    file writer, in that order. *)
Theorem executeSingletonTemplates_writes_all e w :
  IsJoinTable (Table (data e)) = false ->
  forallb (singleton_ok e (unwritable w)) (Templates (templates e)) = true ->
  fst (executeSingletonTemplates e w) = Return None /\
  executed (snd (executeSingletonTemplates e w))
    = executed w ++ Templates (templates e) /\
  writeCalls (snd (executeSingletonTemplates e w))
    = writeCalls w ++ concat (map (singleton_written e) (Templates (templates e))) /\
  files (snd (executeSingletonTemplates e w))
    = apply_writes (concat (map (singleton_written e) (Templates (templates e))))
        (files w) /\
  length (concat (map (singleton_written e) (Templates (templates e))))
    = length (Templates (templates e)).
Proof.
  intros Hjoin Hok. unfold executeSingletonTemplates. rewrite Hjoin.
  destruct (executeSingletonTemplates_loop_app e (Templates (templates e)) [] w Hok)
    as (wmid & Hrun & Hfiles & _ & Hex & Hcalls).
  rewrite (right_id_L [] (++)) in Hrun. rewrite Hrun. simpl.
  repeat (split; [done|]).
  clear -Hok. induction (Templates (templates e)) as [|tplName names IH]; [done|].
  simpl in *. apply andb_prop in Hok as [Hone Hok].
  rewrite List.length_app, IH by done.
  unfold singleton_ok, singleton_written in *.
  apply andb_prop in Hone as [_ Hone].
  by destruct (format_Source (singleton_assembled e tplName)).
Qed.


(** X19: two singleton templates whose names derive the same name are
    written to the same path, one after the other: the file ends up with
    the output of the later template. *)
Theorem singleton_name_collision e w tpl1 tpl2 byt1 byt2 :
  IsJoinTable (Table (data e)) = false ->
  Templates (templates e) = [tpl1; tpl2] ->
  singletonFName tpl1 = singletonFName tpl2 ->
  forallb (singleton_ok e (unwritable w)) [tpl1; tpl2] = true ->
  format_Source (singleton_assembled e tpl1) = inl byt1 ->
  format_Source (singleton_assembled e tpl2) = inl byt2 ->
  fst (executeSingletonTemplates e w) = Return None /\
  writeCalls (snd (executeSingletonTemplates e w))
    = writeCalls w ++ [(singleton_path e tpl2, byt1); (singleton_path e tpl2, byt2)] /\
  files (snd (executeSingletonTemplates e w)) !! singleton_path e tpl2 = Some byt2.
Proof.
  intros Hjoin Hnames Hsame Hok Hf1 Hf2.
  unfold executeSingletonTemplates. rewrite Hjoin, Hnames.
  destruct (executeSingletonTemplates_loop_app e [tpl1; tpl2] [] w Hok)
    as (wmid & Hrun & Hfiles & _ & _ & Hcalls).
  rewrite (right_id_L [] (++)) in Hrun. rewrite Hrun. simpl.
  assert (singleton_path e tpl1 = singleton_path e tpl2) as Hpath
    by (unfold singleton_path; by rewrite Hsame).
  unfold singleton_written in *. simpl in *.
  rewrite Hf1, Hf2, Hpath in *. simpl in *.
  split; [done|]. split; [done|].
  rewrite Hfiles. apply lookup_insert_eq.
Qed.

End SingletonEndToEnd.

Lemma executeSingletonTemplates_writes_all_witness :
  let C := sample_collaborators format_ok in
  let e := singleton_request ["01_helpers.tmpl"; "boil_types.tpl"] in
  IsJoinTable (Table (data e)) = false /\
  forallb (singleton_ok e (unwritable sample_world)) (Templates (templates e)) = true /\
  fst (executeSingletonTemplates e sample_world) = Return None /\
  map fst (writeCalls (snd (executeSingletonTemplates e sample_world)))
    = ["out/helpers.go"; "out/boil_types.go"].
Proof.
  intros C e. split; [reflexivity|].
  assert (forallb (singleton_ok e (unwritable sample_world))
            (Templates (templates e)) = true) as Hok by (vm_compute; reflexivity).
  split; [exact Hok|].
  destruct (executeSingletonTemplates_writes_all e sample_world eq_refl Hok)
    as (Hres & _ & Hcalls & _).
  split; [exact Hres|]. rewrite Hcalls. vm_compute. reflexivity.
Defined.


Lemma singleton_name_collision_witness :
  let C := sample_collaborators format_ok in
  let e := singleton_request ["01_a.tpl"; "02_a.tpl"] in
  IsJoinTable (Table (data e)) = false /\
  singletonFName "01_a.tpl" = singletonFName "02_a.tpl" /\
  forallb (singleton_ok e (unwritable sample_world)) ["01_a.tpl"; "02_a.tpl"] = true /\
  singleton_path e "02_a.tpl" = "out/a.go" /\
  files (snd (executeSingletonTemplates e sample_world)) !! "out/a.go"
    = Some (singleton_assembled e "02_a.tpl").
Proof.
  intros C e. split; [reflexivity|]. split; [reflexivity|].
  assert (forallb (singleton_ok e (unwritable sample_world))
            ["01_a.tpl"; "02_a.tpl"] = true) as Hok by (vm_compute; reflexivity).
  split; [exact Hok|]. split; [reflexivity|].
  exact (proj2 (proj2 (singleton_name_collision e sample_world
                         "01_a.tpl" "02_a.tpl"
                         (singleton_assembled e "01_a.tpl")
                         (singleton_assembled e "02_a.tpl")
                         eq_refl eq_refl eq_refl Hok eq_refl eq_refl))).
Defined.

(** ** Import sets of the two assemblers *)

Section ImportSources.
Context `{Collaborators}.

(** X20: a singleton template whose derived name has no entry in the map
    of named import sets gets the import block of the empty set. *)
Theorem singleton_without_named_imports e tplName more w :
  importNamedSet e !! singletonFName tplName = None ->
  succeeds (Template (templates e) tplName (data e)) = true ->
  executeSingletonTemplates_loop e (tplName :: more) w =
    match writeFile (OutFolder (Config (state e)))
            (singletonFName tplName +:+ fileSuffix e)
            (assembled_world
               (fileLayout (PkgName (Config (state e)))
                  (Set_Format {| Standard := []; ThirdParty := [] |})
                  (output (Template (templates e) tplName (data e))))
               [tplName] w) with
    | (Some err, w2) => (Return (Some err), w2)
    | (None, w2) => executeSingletonTemplates_loop e more w2
    end.
Proof.
  intros Hkey Hsucc. rewrite executeSingletonTemplates_loop_cons. simpl.
  apply executeTemplate_result_succeeds in Hsucc. rewrite Hsucc.
  unfold singleton_assembled, singleton_imports, Map_index. by rewrite Hkey.
Qed.

(** X21: each assembler reads its own source of imports only: what
    executeSingletonTemplates does is the same whatever the base set, the
    type flag and the type-based rules are, and what executeTemplates does
    is the same whatever the map of named sets is. *)
Theorem assemblers_import_sources e w :
  (forall base flag basedOnType,
     executeSingletonTemplates
       {| state := with_BasedOnType basedOnType (state e);
          data := data e;
          templates := templates e;
          importSet := base;
          importNamedSet := importNamedSet e;
          combineImportsOnType := flag;
          fileSuffix := fileSuffix e |} w
     = executeSingletonTemplates e w) /\
  (forall named,
     executeTemplates
       {| state := state e;
          data := data e;
          templates := templates e;
          importSet := importSet e;
          importNamedSet := named;
          combineImportsOnType := combineImportsOnType e;
          fileSuffix := fileSuffix e |} w
     = executeTemplates e w).
Proof.
  split; [|done].
  intros base flag basedOnType. unfold executeSingletonTemplates. simpl.
  destruct (IsJoinTable (Table (data e))); [done|].
  revert w. induction (Templates (templates e)) as [|tplName more IH]; intros w;
    [done|].
  rewrite !executeSingletonTemplates_loop_cons. simpl.
  change (singleton_assembled _ tplName) with (singleton_assembled e tplName).
  destruct (executeTemplate_result _ _ _); [done|].
  destruct (writeFile _ _ _) as [[err|] w2]; [done|apply IH].
Qed.

End ImportSources.

Lemma singleton_without_named_imports_witness :
  let C := sample_collaborators format_ok in
  let e := singleton_request ["01_helpers.tmpl"] in
  importNamedSet e !! singletonFName "01_helpers.tmpl" = None /\
  succeeds (Template (templates e) "01_helpers.tmpl" (data e)) = true /\
  files (snd (executeSingletonTemplates_loop e ["01_helpers.tmpl"] sample_world))
    !! "out/helpers.go"
  = Some (fileLayout "models" "" ("// 01_helpers.tmpl" +:+ nl)).
Proof.
  intros C e. split; [reflexivity|]. split; [reflexivity|].
  rewrite (singleton_without_named_imports e "01_helpers.tmpl" [] sample_world)
    by reflexivity.
  vm_compute. reflexivity.
Defined.

(** ** How often the file writer is called *)

Section WriterCalls.
Context `{Collaborators}.

Lemma writeFile_call_count outFolder fileName w :
  exists calls,
    calls_between w (snd (writeFile outFolder fileName w)) calls /\
    (length calls <= 1)%nat.
Proof.
  destruct (format_Source (Bytes w)) as [byt|err] eqn:Hf.
  - rewrite (writeFile_format_success _ _ _ _ Hf). simpl.
    exists [(filepath_Join outFolder fileName, byt)].
    by destruct (decide (filepath_Join outFolder fileName ∈ unwritable w)).
  - destruct (writeFile_format_failure outFolder fileName w err Hf)
      as (err' & w' & -> & _ & _ & _ & Hcalls).
    exists []. split; [by apply calls_between_none|simpl; lia].
Qed.

(** X22: executeTemplates calls the file writer at most once, and
    executeSingletonTemplates at most once per template of its list. *)
Theorem writer_call_counts e w :
  (exists calls,
     calls_between w (snd (executeTemplates e w)) calls /\
     (length calls <= 1)%nat) /\
  (exists calls,
     calls_between w (snd (executeSingletonTemplates e w)) calls /\
     (length calls <= length (Templates (templates e)))%nat).
Proof.
  split.
  - destruct (IsJoinTable (Table (data e))) eqn:Hjoin.
    + unfold executeTemplates. rewrite Hjoin. exists [].
      split; [by apply calls_between_none|simpl; lia].
    + rewrite executeTemplates_eq by done. simpl.
      destruct (first_failure _ _ _) as [err|].
      * exists []. split; [by apply calls_between_none|simpl; lia].
      * apply (writeFile_call_count _ _
                 (assembled_world
                    (assembled e (ran_names (Template (templates e)) (data e)
                                    (Templates (templates e))))
                    (ran_names (Template (templates e)) (data e)
                       (Templates (templates e))) w)).
  - unfold executeSingletonTemplates.
    destruct (IsJoinTable (Table (data e))).
    { exists []. split; [by apply calls_between_none|simpl; lia]. }
    revert w. induction (Templates (templates e)) as [|tplName more IH]; intros w.
    { exists []. split; [by apply calls_between_none|simpl; lia]. }
    rewrite executeSingletonTemplates_loop_cons. simpl.
    destruct (executeTemplate_result _ _ _) as [err|].
    { exists []. split; [by apply calls_between_none|simpl; lia]. }
    set (w1 := assembled_world (singleton_assembled e tplName) [tplName] w).
    destruct (writeFile_call_count (OutFolder (Config (state e)))
                (singletonFName tplName +:+ fileSuffix e) w1)
      as (calls1 & Hcalls1 & Hlen1).
    destruct (writeFile _ _ w1) as [[err|] w2]; simpl in *.
    + exists calls1. split; [done|lia].
    + destruct (IH w2) as (calls2 & Hcalls2 & Hlen2).
      exists (calls1 ++ calls2).
      split; [by apply (calls_between_trans w w2)|].
      rewrite List.length_app. lia.
Qed.

End WriterCalls.
